(** * Workout planner: a shallow embedding of [app.py]

  The application is a Flask program: eight route handlers over three
  SQLAlchemy tables ([User], [Workout], [Exercise]), three WTForms forms and
  Flask-Login's session identity.  This file embeds the handlers as
  functions in a small state-and-exception monad over an explicit [World]
  (committed tables, the unit of work of the current request, the session
  identity and the flashed messages) and proves the properties of the
  specification about them.

  Conventions of the model.

  - A Python [str] is a [string]; each [ascii] stands for the code point of
    the same number, so the model covers the text whose code points are
    below 256.  Within that range the white space of [str.strip] is the
    set [Py_UNICODE_ISSPACE] accepts, the white space of [int] is the
    smaller set without FS..US, and the decimal digits are ['0'..'9'].
  - A Python [int] is a [Z].  A table is a list of rows in insertion
    order, a primary key is one more than the largest key of the table.
    The database engine is a parameter, [config.py] not being among the
    sources: what the model takes of it is the range of its [INTEGER]
    type.  An integer a request supplies (the sets and reps of an exercise,
    the workout id of a URL) is bound to a statement only within that
    range, the driver raising [OverflowError] beyond it; the keys the
    engine generates, and the references and the session identity that are
    copies of them, are within it.  The length a [String(n)] column
    enforces is outside the model.
    A commit does not check the other constraints of the schema; that the
    views keep the keys, the addresses and the names unique and the
    references valid is proved ([serve_consistent]).
  - A query without [ORDER BY] returns rows in table order, and compares
    strings exactly.
  - The libraries the program calls (Werkzeug's password hasher, the e-mail
    validator, the CSRF check of Flask-WTF) are parameters or inputs; the
    views are proved for every behaviour of them, except where a property
    is about the hasher's round trip, which is then a premise
    ([round_trip]).
  - Routing is Flask's: the model starts at the view a request is routed
    to, with the two methods the routes accept, [GET] and [POST].
  - Requests are served one at a time. *)

From Stdlib Require Import ZArith List String Ascii Bool Lia Arith.
Import ListNotations.
Local Open Scope string_scope.
Local Open Scope Z_scope.

(** ** Python strings *)

Module PyStr.

(** [Py_UNICODE_ISSPACE] on code points below 256: TAB..CR, FS..US, SPACE,
    NEL and NBSP. *)
Definition isspace (c : ascii) : bool :=
  let n := nat_of_ascii c in
  (((9 <=? n) && (n <=? 13)) || ((28 <=? n) && (n <=? 32))
   || (n =? 133) || (n =? 160))%nat.

Definition isdigit (c : ascii) : bool :=
  let n := nat_of_ascii c in ((48 <=? n) && (n <=? 57))%nat.

Definition digit_value (c : ascii) : Z := Z.of_nat (nat_of_ascii c) - 48.

(** Truth value of a [str]: non-empty. *)
Definition truthy (s : string) : bool :=
  match s with EmptyString => false | String _ _ => true end.

Fixpoint lstrip (s : string) : string :=
  match s with
  | EmptyString => EmptyString
  | String c rest => if isspace c then lstrip rest else s
  end.

Fixpoint rstrip (s : string) : string :=
  match s with
  | EmptyString => EmptyString
  | String c rest =>
      match rstrip rest with
      | EmptyString => if isspace c then EmptyString else String c EmptyString
      | r => String c r
      end
  end.

(** [s.strip()] *)
Definition strip (s : string) : string := rstrip (lstrip s).

(** A name is blank when it is empty or white space only, which is when
    [s.strip()] is falsy. *)
Fixpoint all_space (s : string) : bool :=
  match s with
  | EmptyString => true
  | String c rest => isspace c && all_space rest
  end.

(** *** [int(s)] on a string, base ten

    CPython's [PyLong_FromString]: white space is skipped on both sides,
    one sign may follow, then a non-empty run of digits in which single
    underscores may separate digits.  A run of more than
    [max_str_digits] digits is refused when that limit is positive
    ([sys.get_int_max_str_digits()], 4300 by default from Python 3.11 on,
    0 for no limit); the limit is only consulted above 640 digits. *)

(** The white space [int] skips is not that of [str.strip]: among the ASCII
    characters it is [Py_ISSPACE], TAB..CR and SPACE, so that FS..US are
    characters the number may not contain; beyond ASCII it is what
    [Py_UNICODE_ISSPACE] accepts, NEL and NBSP. *)
Definition isspace_int (c : ascii) : bool :=
  let n := nat_of_ascii c in
  (((9 <=? n) && (n <=? 13)) || (n =? 32) || (n =? 133) || (n =? 160))%nat.

Fixpoint skip_leading (s : string) : string :=
  match s with
  | EmptyString => EmptyString
  | String c rest => if isspace_int c then skip_leading rest else s
  end.

Fixpoint skip_trailing (s : string) : string :=
  match s with
  | EmptyString => EmptyString
  | String c rest =>
      match skip_trailing rest with
      | EmptyString => if isspace_int c then EmptyString else String c EmptyString
      | r => String c r
      end
  end.

(** The digit run: the accumulated value and the number of digits read.
    An underscore must be followed by a digit. *)
Fixpoint digit_run (s : string) (acc : Z) (n : nat) : option (Z * nat) :=
  match s with
  | EmptyString => Some (acc, n)
  | String c rest =>
      if isdigit c then digit_run rest (10 * acc + digit_value c) (S n)
      else if Ascii.eqb c "_" then
        match rest with
        | String d _ => if isdigit d then digit_run rest acc n else None
        | EmptyString => None
        end
      else None
  end.

Definition unsigned (max_str_digits : nat) (s : string) : option Z :=
  match s with
  | String c _ =>
      if isdigit c then
        match digit_run s 0 0%nat with
        | Some (v, n) =>
            if ((640 <? n) && (0 <? max_str_digits) && (max_str_digits <? n))%nat
            then None else Some v
        | None => None
        end
      else None
  | EmptyString => None
  end.

Definition int (max_str_digits : nat) (s : string) : option Z :=
  match skip_trailing (skip_leading s) with
  | String "+" rest => unsigned max_str_digits rest
  | String "-" rest => option_map Z.opp (unsigned max_str_digits rest)
  | t => unsigned max_str_digits t
  end.

End PyStr.

(** ** The tables

    One record per model class, a field per column.  [id] is the primary key
    the engine generates when the row is first written. *)

Module User.
Record t := mk {
  id : Z;
  username : string;
  email : string;
  password_hash : string }.
End User.

Module Workout.
Record t := mk {
  id : Z;
  user_id : Z;
  date : string;
  start_time : string;
  duration : string;
  notes : option string }.
End Workout.

Module Exercise.
Record t := mk {
  id : Z;
  workout_id : Z;
  body_part : string;
  name : string;
  sets : Z;
  reps : Z }.
End Exercise.

Record Database := mkDatabase {
  users : list User.t;
  workouts : list Workout.t;
  exercises : list Exercise.t }.

Definition empty_db : Database := mkDatabase [] [] [].

(** The key an auto-increment column gives the next row of a table whose
    keys are [ks]. *)
Definition next_id (ks : list Z) : Z := 1 + fold_right Z.max 0 ks.

(** The database engine, as far as the program can tell it from another:
    the range of its [INTEGER] type.  For a value out of the range the
    driver raises instead of binding it to a statement. *)
Class Engine := {
  INTEGER_MIN : Z;
  INTEGER_MAX : Z }.

Definition fits {engine : Engine} (z : Z) : bool :=
  (INTEGER_MIN <=? z) && (z <=? INTEGER_MAX).

(** The values of an exercise the request supplied, [sets] and [reps], can
    be stored. *)
Definition storable {engine : Engine} (e : Exercise.t) : bool :=
  fits (Exercise.sets e) && fits (Exercise.reps e).

(** ** Flashed messages, pages and responses *)

Inductive Category := danger | success | message.

(** The texts the program flashes (in Polish; the diacritics are left out
    here):
    - [email_taken]: "Ten adres e-mail jest juz zajety. Wybierz inny."
    - [username_taken]: "Ta nazwa uzytkownika jest juz zajeta. Wybierz inna."
    - [account_created]: "Konto utworzone! Mozesz sie zalogowac."
    - [invalid_credentials]: "Bledny email lub haslo"
    - [workout_added]: "Trening dodany!"
    - [please_log_in]: Flask-Login's "Please log in to access this page." *)
Inductive Text :=
| email_taken
| username_taken
| account_created
| invalid_credentials
| workout_added
| please_log_in.

Definition Flash : Type := Text * Category.

(** ** The world a request runs in

    [committed] is what the database holds; [pending] is the unit of work of
    the current request: the objects given to [db.session.add] that no commit
    has written yet.  [session_user_id] is the identity Flask-Login keeps in
    the session cookie and [flashed] the messages flashed so far. *)

Record World := mkWorld {
  committed : Database;
  pending : Database;
  session_user_id : option Z;
  flashed : list Flash }.

(** Exceptions a view can raise.  [NotFound] is the [abort(404)] of
    [get_or_404]; the others are never caught by the program.
    [OverflowError] is what SQLite's driver raises for an integer out of
    the range of the engine; another driver has an error of its own for
    it, equally uncaught. *)
Inductive Exn :=
| ValueError
| IndexError
| AttributeError
| OverflowError
| NotFound.

Inductive Result (A : Type) :=
| Ok (a : A)
| Raise (e : Exn).
Arguments Ok {A} a.
Arguments Raise {A} e.

Definition M (A : Type) : Type := World -> Result A * World.

Definition ret {A} (a : A) : M A := fun w => (Ok a, w).

Definition bind {A B} (m : M A) (k : A -> M B) : M B :=
  fun w => match m w with
           | (Ok a, w') => k a w'
           | (Raise e, w') => (Raise e, w')
           end.

Definition raise {A} (e : Exn) : M A := fun w => (Raise e, w).

Declare Scope py_scope.
Delimit Scope py_scope with py.
Notation "x <- m ;; k" := (bind m (fun x => k))
  (at level 61, m at next level, right associativity) : py_scope.
Notation "m ;; k" := (bind m (fun _ => k))
  (at level 61, right associativity) : py_scope.
Local Open Scope py_scope.

(** *** The session of SQLAlchemy *)

(** [db.session.add(obj)] for an object built without a key.  The object is
    queued; the key it reads back once a commit has written it is the one
    the table will generate, which the model fixes here, there being one
    request at a time. *)
Definition session_add_user (obj : Z -> User.t) : M User.t :=
  fun w =>
    let p := pending w in
    let u := obj (next_id (map User.id (users (committed w) ++ users p))) in
    (Ok u, mkWorld (committed w)
                   (mkDatabase (users p ++ [u]) (workouts p) (exercises p))
                   (session_user_id w) (flashed w)).

Definition session_add_workout (obj : Z -> Workout.t) : M Workout.t :=
  fun w =>
    let p := pending w in
    let x := obj (next_id (map Workout.id (workouts (committed w) ++ workouts p))) in
    (Ok x, mkWorld (committed w)
                   (mkDatabase (users p) (workouts p ++ [x]) (exercises p))
                   (session_user_id w) (flashed w)).

Definition session_add_exercise (obj : Z -> Exercise.t) : M Exercise.t :=
  fun w =>
    let p := pending w in
    let x := obj (next_id (map Exercise.id (exercises (committed w) ++ exercises p))) in
    (Ok x, mkWorld (committed w)
                   (mkDatabase (users p) (workouts p) (exercises p ++ [x]))
                   (session_user_id w) (flashed w)).

(** [db.session.commit()]: every queued object becomes a row, unless the
    sets or reps of a queued exercise are out of the range of the engine:
    then the flush raises and nothing that was queued is written. *)
Definition session_commit {engine : Engine} : M unit :=
  fun w =>
    let c := committed w in
    let p := pending w in
    if forallb storable (exercises p) then
      (Ok tt, mkWorld (mkDatabase (users c ++ users p)
                                  (workouts c ++ workouts p)
                                  (exercises c ++ exercises p))
                      empty_db (session_user_id w) (flashed w))
    else (Raise OverflowError, w).

(** Reading a table. *)
Definition query {A} (table : Database -> list A) : M (list A) :=
  fun w => (Ok (table (committed w)), w).

(** [.filter_by(...)], [.all()], [.first()] and [.get(key)]. *)
Definition filter_by {A} (p : A -> bool) (rows : list A) : list A := filter p rows.

Definition all {A} (rows : list A) : list A := rows.

Definition first {A} (rows : list A) : option A := hd_error rows.

Definition get {A} (key : A -> Z) (k : Z) (rows : list A) : option A :=
  find (fun r => key r =? k) rows.

(** [flash(text, category)] *)
Definition flash (t : Text) (c : Category) : M unit :=
  fun w => (Ok tt, mkWorld (committed w) (pending w) (session_user_id w)
                           (flashed w ++ [(t, c)])).

(** *** Flask-Login *)

(** The [user_loader] callback, lines 82-84.  Flask-Login keeps the
    identity in the session as [str(user.id)], as [login_user] wrote it
    from the key of a stored user, and the loader coerces it back with
    [int]; the model keeps the key itself, so the loader is modelled on the
    identities [login_user] writes and not on other strings. *)
Definition load_user (user_id : Z) : M (option User.t) :=
  us <- query users ;; ret (get User.id user_id us).

(** [current_user]: the user the session identity loads, or the anonymous
    user ([None]). *)
Definition current_user : M (option User.t) :=
  fun w => match session_user_id w with
           | Some k => load_user k w
           | None => (Ok None, w)
           end.

(** [current_user.id]; the anonymous user has no such attribute. *)
Definition current_user_id : M Z :=
  u <- current_user ;;
  match u with
  | Some u => ret (User.id u)
  | None => raise AttributeError
  end.

Definition login_user (u : User.t) : M unit :=
  fun w => (Ok tt, mkWorld (committed w) (pending w) (Some (User.id u)) (flashed w)).

Definition logout_user : M unit :=
  fun w => (Ok tt, mkWorld (committed w) (pending w) None (flashed w)).

(** ** Requests and forms *)

Inductive Method := GET | POST.

(** What a view reads of a request: the method, whether Flask-WTF accepts
    its CSRF token, the submitted fields in order (a multi-dict), and the
    salt Werkzeug draws should the view hash a password. *)
Record Request := mkRequest {
  method : Method;
  csrf_ok : bool;
  form : list (string * string);
  salt : string }.

(** [request.form.getlist(key)] *)
Definition getlist (key : string) (request : Request) : list string :=
  map snd (filter (fun kv => String.eqb (fst kv) key) (form request)).

(** [form.is_submitted()]: of the two methods the routes accept, [POST]. *)
Definition is_submitted (request : Request) : bool :=
  match method request with POST => true | GET => false end.

(** The data of a string field bound to the request: the first value
    submitted under its name, [None] when the form is not submitted or the
    field is absent. *)
Definition field_data (key : string) (request : Request) : option string :=
  if is_submitted request then hd_error (getlist key request) else None.

(** The [str] a validated field holds. *)
Definition data (d : option string) : string :=
  match d with Some s => s | None => EmptyString end.

(** WTForms' [DataRequired]: the data is truthy and, being a string, still
    truthy once stripped. *)
Definition DataRequired (d : option string) : bool :=
  match d with
  | Some s => PyStr.truthy s && PyStr.truthy (PyStr.strip s)
  | None => false
  end.

(** WTForms' [EqualTo]: the data equals the data of the other field. *)
Definition EqualTo (d other : option string) : bool :=
  match d, other with
  | Some a, Some b => String.eqb a b
  | None, None => true
  | _, _ => false
  end.

(** The library functions the program imports. *)
Class Werkzeug := {
  generate_password_hash : string -> string -> string;
  check_password_hash : string -> string -> bool }.

Class EmailValidator := {
  Email : string -> bool }.

Class Interpreter := {
  int_max_str_digits : nat }.

Module RegisterForm.
Record t := mk {
  submitted : bool;
  csrf : bool;
  username : option string;
  email : option string;
  password : option string;
  password2 : option string }.

Definition bind_request (request : Request) : t :=
  mk (is_submitted request) (csrf_ok request)
     (field_data "username" request) (field_data "email" request)
     (field_data "password" request) (field_data "password2" request).

Definition validate {validator : EmailValidator} (f : t) : bool :=
  csrf f
  && DataRequired (username f)
  && (DataRequired (email f) && Email (data (email f)))
  && (DataRequired (password f) && EqualTo (password f) (password2 f))
  && DataRequired (password2 f).

Definition validate_on_submit {validator : EmailValidator} (f : t) : bool :=
  submitted f && validate f.
End RegisterForm.

Module LoginForm.
Record t := mk {
  submitted : bool;
  csrf : bool;
  email : option string;
  password : option string }.

Definition bind_request (request : Request) : t :=
  mk (is_submitted request) (csrf_ok request)
     (field_data "email" request) (field_data "password" request).

Definition validate {validator : EmailValidator} (f : t) : bool :=
  csrf f
  && (DataRequired (email f) && Email (data (email f)))
  && DataRequired (password f).

Definition validate_on_submit {validator : EmailValidator} (f : t) : bool :=
  submitted f && validate f.
End LoginForm.

Module WorkoutForm.
Record t := mk {
  submitted : bool;
  csrf : bool;
  date : option string;
  start_time : option string;
  duration : option string;
  notes : option string }.

Definition bind_request (request : Request) : t :=
  mk (is_submitted request) (csrf_ok request)
     (field_data "date" request) (field_data "start_time" request)
     (field_data "duration" request) (field_data "notes" request).

Definition validate (f : t) : bool :=
  csrf f
  && DataRequired (date f)
  && DataRequired (start_time f)
  && DataRequired (duration f).

Definition validate_on_submit (f : t) : bool :=
  submitted f && validate f.
End WorkoutForm.

(** ** Pages and responses

    A page is a template with the context [render_template] is given. *)
Inductive Page :=
| index_html
| register_html (form : RegisterForm.t)
| login_html (form : LoginForm.t)
| dashboard_html (user : option User.t) (workouts : list Workout.t)
| add_workout_html (form : WorkoutForm.t)
| workout_history_html (workouts : list (Workout.t * list Exercise.t))
| view_workout_html (workout : Workout.t) (exercises : list Exercise.t).

(** The arguments [url_for] is called with. *)
Inductive Endpoint := ep_index | ep_register | ep_login | ep_dashboard.

Inductive Response :=
| render_template (page : Page)
| redirect (to : Endpoint)
| not_found
| internal_server_error (e : Exn).

(** [login_manager.unauthorized()] with [login_view = "login"], lines 17-18. *)
Definition unauthorized : M Response :=
  flash please_log_in message ;;
  ret (redirect ep_login).

(** Modelled from the spec: [config.py], which [app.config] is loaded from
    at line 13, is not among the sources.  The spec has a request without a
    session redirected from a protected route to the login page, the
    default of the framework, so the configuration leaves the login checks
    enabled. *)
Definition LOGIN_DISABLED : bool := false.

(** The [login_required] decorator: the view runs when the login checks are
    disabled or the current user is authenticated. *)
Definition login_required (view : M Response) : M Response :=
  if LOGIN_DISABLED then view
  else
    u <- current_user ;;
    match u with
    | Some _ => view
    | None => unauthorized
    end.

(** ** The model classes' methods, lines 31-35 *)

Definition set_password {hasher : Werkzeug} (self : User.t) (salt password : string) : User.t :=
  User.mk (User.id self) (User.username self) (User.email self)
          (generate_password_hash salt password).

Definition check_password {hasher : Werkzeug} (self : User.t) (password : string) : bool :=
  check_password_hash (User.password_hash self) password.

(** ** Python's list indexing, [range] and [int] inside a view *)

Definition getitem {A} (l : list A) (i : nat) : M A :=
  match nth_error l i with
  | Some x => ret x
  | None => raise IndexError
  end.

Definition range (n : nat) : list nat := seq 0 n.

Fixpoint for_each {A} (xs : list A) (body : A -> M unit) : M unit :=
  match xs with
  | [] => ret tt
  | x :: rest => body x ;; for_each rest body
  end.

Definition int {python : Interpreter} (s : string) : M Z :=
  match PyStr.int int_max_str_digits s with
  | Some z => ret z
  | None => raise ValueError
  end.

(** [Workout.query.get_or_404(key)], for a key the request supplies: out
    of the range of the engine it cannot be bound to the query. *)
Definition get_or_404 {engine : Engine} {A} (key : A -> Z) (k : Z)
  (rows : list A) : M A :=
  if fits k then
    match get key k rows with
    | Some r => ret r
    | None => raise NotFound
    end
  else raise OverflowError.

(** ** The views *)

(** Lines 88-90. *)
Definition index : M Response :=
  ret (render_template index_html).

(** Lines 93-113.  [User(username=..., email=...)] leaves [password_hash]
    unset, written here as the empty string, until [set_password] fills it
    on the next line. *)
Definition register {hasher : Werkzeug} {validator : EmailValidator}
  {engine : Engine} (request : Request) : M Response :=
  let form := RegisterForm.bind_request request in
  if RegisterForm.validate_on_submit form then
    us <- query users ;;
    let existing_user :=
      first (filter_by (fun u => String.eqb (User.email u) (data (RegisterForm.email form))) us) in
    match existing_user with
    | Some _ =>
        flash email_taken danger ;;
        ret (redirect ep_register)
    | None =>
        us <- query users ;;
        let existing_username :=
          first (filter_by (fun u => String.eqb (User.username u) (data (RegisterForm.username form))) us) in
        match existing_username with
        | Some _ =>
            flash username_taken danger ;;
            ret (redirect ep_register)
        | None =>
            let user := fun k =>
              User.mk k (data (RegisterForm.username form))
                   (data (RegisterForm.email form)) EmptyString in
            let user := fun k =>
              set_password (user k) (salt request) (data (RegisterForm.password form)) in
            session_add_user user ;;
            session_commit ;;
            flash account_created success ;;
            ret (redirect ep_login)
        end
    end
  else ret (render_template (register_html form)).

(** Lines 116-125. *)
Definition login {hasher : Werkzeug} {validator : EmailValidator} (request : Request) : M Response :=
  let form := LoginForm.bind_request request in
  if LoginForm.validate_on_submit form then
    us <- query users ;;
    let user :=
      first (filter_by (fun u => String.eqb (User.email u) (data (LoginForm.email form))) us) in
    let failed :=
      flash invalid_credentials danger ;;
      ret (render_template (login_html form)) in
    match user with
    | Some u =>
        if check_password u (data (LoginForm.password form)) then
          login_user u ;;
          ret (redirect ep_dashboard)
        else failed
    | None => failed
    end
  else ret (render_template (login_html form)).

(** Lines 128-132. *)
Definition logout : M Response :=
  login_required (
    logout_user ;;
    ret (redirect ep_index)).

(** Lines 135-139. *)
Definition dashboard : M Response :=
  login_required (
    uid <- current_user_id ;;
    ws <- query workouts ;;
    let workouts := all (filter_by (fun w => Workout.user_id w =? uid) ws) in
    user <- current_user ;;
    ret (render_template (dashboard_html user workouts))).

(** The body of the loop of lines 162-171, for one index [i]. *)
Definition add_exercise {python : Interpreter} (workout : Workout.t)
  (exercise_names exercise_body_parts exercise_sets exercise_reps : list string)
  (i : nat) : M unit :=
  name_i <- getitem exercise_names i ;;
  if PyStr.truthy (PyStr.strip name_i) then
    body_part <- getitem exercise_body_parts i ;;
    name <- getitem exercise_names i ;;
    s <- getitem exercise_sets i ;;
    sets <- int s ;;
    r <- getitem exercise_reps i ;;
    reps <- int r ;;
    session_add_exercise
      (fun k => Exercise.mk k (Workout.id workout) body_part name sets reps) ;;
    ret tt
  else ret tt.

(** Lines 142-177. *)
Definition add_workout {python : Interpreter} {engine : Engine}
  (request : Request) : M Response :=
  login_required (
    let form := WorkoutForm.bind_request request in
    if WorkoutForm.validate_on_submit form then
      uid <- current_user_id ;;
      workout <- session_add_workout (fun k =>
        Workout.mk k uid
          (data (WorkoutForm.date form))
          (data (WorkoutForm.start_time form))
          (data (WorkoutForm.duration form))
          (WorkoutForm.notes form)) ;;
      session_commit ;;
      let exercise_names := getlist "exercise_name" request in
      let exercise_body_parts := getlist "exercise_body_part" request in
      let exercise_sets := getlist "exercise_sets" request in
      let exercise_reps := getlist "exercise_reps" request in
      for_each (range (List.length exercise_names))
        (add_exercise workout exercise_names exercise_body_parts
                      exercise_sets exercise_reps) ;;
      session_commit ;;
      flash workout_added success ;;
      ret (redirect ep_dashboard)
    else ret (render_template (add_workout_html form))).

(** The loop of lines 185-186: each workout with the exercises queried for
    it. *)
Fixpoint attach_exercises (workouts : list Workout.t) : M (list (Workout.t * list Exercise.t)) :=
  match workouts with
  | [] => ret []
  | workout :: rest =>
      es <- query exercises ;;
      let found := all (filter_by (fun e => Exercise.workout_id e =? Workout.id workout) es) in
      more <- attach_exercises rest ;;
      ret ((workout, found) :: more)
  end.

(** Lines 180-188. *)
Definition workout_history : M Response :=
  login_required (
    uid <- current_user_id ;;
    ws <- query workouts ;;
    let workouts := all (filter_by (fun w => Workout.user_id w =? uid) ws) in
    workouts <- attach_exercises workouts ;;
    ret (render_template (workout_history_html workouts))).

(** Lines 191-196. *)
Definition view_workout {engine : Engine} (workout_id : Z) : M Response :=
  login_required (
    ws <- query workouts ;;
    workout <- get_or_404 Workout.id workout_id ws ;;
    es <- query exercises ;;
    let exercises := all (filter_by (fun e => Exercise.workout_id e =? Workout.id workout) es) in
    ret (render_template (view_workout_html workout exercises))).

(** ** Serving a request

    Flask runs the view on a session whose unit of work is empty, turns an
    [abort(404)] into the not-found response and any other exception into
    the server-error response, and tears the session down: what no commit
    wrote is rolled back. *)
Definition rollback (w : World) : World :=
  mkWorld (committed w) empty_db (session_user_id w) (flashed w).

Definition serve (view : M Response) (w : World) : Response * World :=
  match view (rollback w) with
  | (Ok r, w') => (r, rollback w')
  | (Raise NotFound, w') => (not_found, rollback w')
  | (Raise e, w') => (internal_server_error e, rollback w')
  end.

(** ** Notions the properties are stated with *)

(** The user a request is made as: the stored user the session identity
    names, if any.  [None] is the anonymous user. *)
Definition who (w : World) : option User.t :=
  match session_user_id w with
  | Some k => get User.id k (users (committed w))
  | None => None
  end.

(** The world a request leaves behind when it wrote nothing but flashed
    messages. *)
Definition flashing (w : World) (fs : list Flash) : World :=
  mkWorld (committed w) empty_db (session_user_id w) (flashed w ++ fs).

(** A name is blank when it is empty or white space only. *)
Definition blank (s : string) : bool := PyStr.all_space s.

(** An exercise row of the add-workout page: one value of each of the four
    repeated fields. *)
Record ExerciseRow := mkRow {
  row_name : string;
  row_body_part : string;
  row_sets : string;
  row_reps : string }.

(** The request carries exactly the rows [rows], in order. *)
Definition submits (request : Request) (rows : list ExerciseRow) : Prop :=
  getlist "exercise_name" request = map row_name rows
  /\ getlist "exercise_body_part" request = map row_body_part rows
  /\ getlist "exercise_sets" request = map row_sets rows
  /\ getlist "exercise_reps" request = map row_reps rows.

(** A value [int] accepts. *)
Definition well_formed_integer {python : Interpreter} (s : string) : Prop :=
  PyStr.int int_max_str_digits s <> None.

(** A value [int] accepts and the engine can store. *)
Definition storable_integer {python : Interpreter} {engine : Engine}
  (s : string) : Prop :=
  exists z, PyStr.int int_max_str_digits s = Some z /\ fits z = true.

(** The exercise [e] is what row [r] is persisted as under workout [wid]. *)
Definition persisted_as {python : Interpreter} (wid : Z) (r : ExerciseRow) (e : Exercise.t) : Prop :=
  Exercise.workout_id e = wid
  /\ Exercise.name e = row_name r
  /\ Exercise.body_part e = row_body_part r
  /\ PyStr.int int_max_str_digits (row_sets r) = Some (Exercise.sets e)
  /\ PyStr.int int_max_str_digits (row_reps r) = Some (Exercise.reps e).

(** The workout a valid add-workout submission of user [u] creates in the
    world [w]. *)
Definition new_workout (w : World) (u : User.t) (request : Request) : Workout.t :=
  let form := WorkoutForm.bind_request request in
  Workout.mk (next_id (map Workout.id (workouts (committed w)))) (User.id u)
    (data (WorkoutForm.date form)) (data (WorkoutForm.start_time form))
    (data (WorkoutForm.duration form)) (WorkoutForm.notes form).

(** The values of an exercise the loop of [add_workout] has read and
    coerced: what it builds the [Exercise] from, the workout and the key
    apart. *)
Record Entry := mkEntry {
  entry_body_part : string;
  entry_name : string;
  entry_sets : Z;
  entry_reps : Z }.

(** The sets and reps of an entry are in the range of the engine. *)
Definition entry_fits {engine : Engine} (x : Entry) : bool :=
  fits (entry_sets x) && fits (entry_reps x).

Definition exercise_of_entry (wid k : Z) (x : Entry) : Exercise.t :=
  Exercise.mk k wid (entry_body_part x) (entry_name x) (entry_sets x) (entry_reps x).

(** The exercises of workout [wid] built from entries, keys handed out in
    sequence from [k] on. *)
Fixpoint number (wid k : Z) (xs : list Entry) : list Exercise.t :=
  match xs with
  | [] => []
  | x :: rest => exercise_of_entry wid k x :: number wid (k + 1) rest
  end.

(** What the loop of [add_workout] does at one index, as a value: nothing
    for a blank name, an exercise queued, or an exception. *)
Inductive Step :=
| Skipped
| Added (x : Entry)
| Failed (e : Exn).

(** The step at index [i] of the four lists, in the order the loop body
    evaluates: the body part, the name, the sets and their coercion, the
    reps and their coercion. *)
Definition step {python : Interpreter} (names body_parts sets reps : list string)
  (i : nat) : Step :=
  match nth_error names i with
  | None => Failed IndexError
  | Some name =>
      if PyStr.truthy (PyStr.strip name) then
        match nth_error body_parts i with
        | None => Failed IndexError
        | Some body_part =>
            match nth_error sets i with
            | None => Failed IndexError
            | Some s =>
                match PyStr.int int_max_str_digits s with
                | None => Failed ValueError
                | Some sets =>
                    match nth_error reps i with
                    | None => Failed IndexError
                    | Some r =>
                        match PyStr.int int_max_str_digits r with
                        | None => Failed ValueError
                        | Some reps => Added (mkEntry body_part name sets reps)
                        end
                    end
                end
            end
        end
      else Skipped
  end.

(** The step of a row that has all four values. *)
Definition row_step {python : Interpreter} (r : ExerciseRow) : Step :=
  if PyStr.truthy (PyStr.strip (row_name r)) then
    match PyStr.int int_max_str_digits (row_sets r) with
    | None => Failed ValueError
    | Some sets =>
        match PyStr.int int_max_str_digits (row_reps r) with
        | None => Failed ValueError
        | Some reps => Added (mkEntry (row_body_part r) (row_name r) sets reps)
        end
    end
  else Skipped.

(** A run of steps: the entries queued before the first failure, and that
    failure if there is one. *)
Fixpoint collect (ss : list Step) : list Entry * option Exn :=
  match ss with
  | [] => ([], None)
  | Skipped :: rest => collect rest
  | Added x :: rest => let (xs, e) := collect rest in (x :: xs, e)
  | Failed e :: _ => ([], Some e)
  end.

(** A step the request gets past: the index is skipped, or an entry is
    added that the engine can store. *)
Definition passes {engine : Engine} (st : Step) : bool :=
  match st with
  | Skipped => true
  | Added x => entry_fits x
  | Failed _ => false
  end.

(** The world once the entries [xs] are queued as exercises of [wid]. *)
Definition queue (wid : Z) (xs : list Entry) (w : World) : World :=
  let p := pending w in
  mkWorld (committed w)
    (mkDatabase (users p) (workouts p)
       (exercises p
        ++ number wid
             (next_id (map Exercise.id (exercises (committed w) ++ exercises p)))
             xs))
    (session_user_id w) (flashed w).

(** The world a valid add-workout submission of [u] leaves behind: the new
    workout is stored, and so are the exercises [es]. *)
Definition with_workout (w : World) (x : Workout.t) (es : list Exercise.t)
  (fs : list Flash) : World :=
  mkWorld
    (mkDatabase (users (committed w)) (workouts (committed w) ++ [x])
                (exercises (committed w) ++ es))
    empty_db (session_user_id w) (flashed w ++ fs).

(** The stored user with a given e-mail address or user name, if any (the
    first in table order). *)
Definition user_with_email (e : string) (w : World) : option User.t :=
  find (fun u => String.eqb (User.email u) e) (users (committed w)).

Definition user_with_username (n : string) (w : World) : option User.t :=
  find (fun u => String.eqb (User.username u) n) (users (committed w)).


(** The workouts of the user [u] and the exercises of the workout [x], in
    table order. *)
Definition workouts_of (u : User.t) (w : World) : list Workout.t :=
  filter (fun x => Workout.user_id x =? User.id u) (workouts (committed w)).

Definition exercises_of (x : Workout.t) (w : World) : list Exercise.t :=
  filter (fun e => Exercise.workout_id e =? Workout.id x) (exercises (committed w)).

(** [Selects p table rows]: [rows] is what is left of [table] when exactly
    the rows that do not satisfy [p] are taken out; the rows that satisfy
    [p] are all there, as often and in the order the table has them. *)
Inductive Selects {A} (p : A -> Prop) : list A -> list A -> Prop :=
| selects_nil : Selects p [] []
| selects_keep x table rows :
    p x -> Selects p table rows -> Selects p (x :: table) (x :: rows)
| selects_drop x table rows :
    ~ p x -> Selects p table rows -> Selects p (x :: table) rows.

(** *** The invariants of the data model *)

(** Keys are unique in each table, no two users share an e-mail address or
    a user name, every workout references a stored user and every exercise
    a stored workout. *)
Record consistent (db : Database) : Prop := mkConsistent {
  user_keys : NoDup (map User.id (users db));
  workout_keys : NoDup (map Workout.id (workouts db));
  exercise_keys : NoDup (map Exercise.id (exercises db));
  unique_emails : NoDup (map User.email (users db));
  unique_usernames : NoDup (map User.username (users db));
  workout_owner :
    forall x, In x (workouts db) -> In (Workout.user_id x) (map User.id (users db));
  exercise_workout :
    forall e, In e (exercises db)
              -> In (Exercise.workout_id e) (map Workout.id (workouts db)) }.

(** A call of one of the eight views. *)
Inductive Call :=
| call_index
| call_register (request : Request)
| call_login (request : Request)
| call_logout
| call_dashboard
| call_add_workout (request : Request)
| call_workout_history
| call_view_workout (workout_id : Z).

Definition view_of {hasher : Werkzeug} {validator : EmailValidator}
  {python : Interpreter} {engine : Engine} (c : Call) : M Response :=
  match c with
  | call_index => index
  | call_register request => register request
  | call_login request => login request
  | call_logout => logout
  | call_dashboard => dashboard
  | call_add_workout request => add_workout request
  | call_workout_history => workout_history
  | call_view_workout workout_id => view_workout workout_id
  end.

(** The world after a sequence of calls. *)
Fixpoint serve_all {hasher : Werkzeug} {validator : EmailValidator}
  {python : Interpreter} {engine : Engine} (calls : list Call) (w : World)
  : World :=
  match calls with
  | [] => w
  | c :: rest => serve_all rest (snd (serve (view_of c) w))
  end.

(** A computation that writes neither to the tables nor to the unit of
    work. *)
Definition read_only {A} (m : M A) : Prop :=
  forall w, committed (snd (m w)) = committed w /\ pending (snd (m w)) = pending w.

(** A computation that leaves the session identity as it is. *)
Definition keeps_session {A} (m : M A) : Prop :=
  forall w, session_user_id (snd (m w)) = session_user_id w.

(** ** Data to run the model on *)

(** A hasher that stores the password as it is; it stands for Werkzeug only
    where an example needs some instance. *)
Definition plain_hasher : Werkzeug :=
  {| generate_password_hash := fun _ password => password;
     check_password_hash := fun pwhash password => String.eqb pwhash password |}.

(** An e-mail check that asks for an at sign. *)
Fixpoint has_at (s : string) : bool :=
  match s with
  | EmptyString => false
  | String c rest => Ascii.eqb c "@" || has_at rest
  end.

Definition at_sign_validator : EmailValidator := {| Email := has_at |}.

(** CPython's default limit. *)
Definition cpython : Interpreter := {| int_max_str_digits := 4300 |}.

(** SQLite, whose [INTEGER] is a signed integer of 64 bits. *)
Definition sqlite : Engine :=
  {| INTEGER_MIN := - 2 ^ 63; INTEGER_MAX := 2 ^ 63 - 1 |}.

Definition alice : User.t := User.mk 1 "alice" "alice@example.com" "wonderland".
Definition bob : User.t := User.mk 2 "bob" "bob@example.com" "builder".

Definition leg_day : Workout.t := Workout.mk 1 1 "2024-05-01" "18:00" "60" None.
Definition squat : Exercise.t := Exercise.mk 1 1 "legs" "squat" 5 5.

Definition gym : Database := mkDatabase [alice; bob] [leg_day] [squat].

(** Nobody, Alice or Bob at the gym. *)
Definition as_nobody : World := mkWorld gym empty_db None [].
Definition as_alice : World := mkWorld gym empty_db (Some 1) [].
Definition as_bob : World := mkWorld gym empty_db (Some 2) [].

Definition workout_fields : list (string * string) :=
  [("date", "2024-05-02"); ("start_time", "07:30"); ("duration", "45");
   ("notes", "push")].

Definition exercise_fields (r : ExerciseRow) : list (string * string) :=
  [("exercise_name", row_name r); ("exercise_body_part", row_body_part r);
   ("exercise_sets", row_sets r); ("exercise_reps", row_reps r)].

Definition post (fields : list (string * string)) : Request :=
  mkRequest POST true fields "salt".

(** Carol registers with Alice's address, with Alice's address and Bob's
    name, and with Bob's name alone. *)
Definition registration (username email password : string) : Request :=
  post [("username", username); ("email", email);
        ("password", password); ("password2", password)].

Definition taken_email : Request :=
  registration "carol" "alice@example.com" "looking-glass".
Definition taken_email_and_username : Request :=
  registration "bob" "alice@example.com" "looking-glass".
Definition taken_username : Request :=
  registration "bob" "carol@example.com" "looking-glass".

(** Logging in as Alice with a wrong password. *)
Definition credentials (email password : string) : Request :=
  post [("email", email); ("password", password)].

Definition wrong_password : Request := credentials "alice@example.com" "guess".

(** Exercise rows: two that are in order, one with a blank name, one whose
    sets are not a number. *)
Definition squats : ExerciseRow := mkRow "squat" "legs" "5" "5".
Definition presses : ExerciseRow := mkRow "press" "chest" "3" "10".
Definition no_name : ExerciseRow :=
  mkRow "  " EmptyString EmptyString EmptyString.
Definition squats_in_words : ExerciseRow := mkRow "squat" "legs" "five" "5".

(** A row whose sets are one more than SQLite can store. *)
Definition squats_beyond_count : ExerciseRow :=
  mkRow "squat" "legs" "9223372036854775808" "5".

Definition add_workout_with (rows : list ExerciseRow) : Request :=
  post (workout_fields ++ flat_map exercise_fields rows).

Definition three_rows : Request := add_workout_with [squats; no_name; presses].
Definition three_rows_one_malformed : Request :=
  add_workout_with [squats_in_words; no_name; presses].

(** Two names, but one value of sets only: a number, or not a number. *)
Definition one_sets_value (sets : string) : Request :=
  post (workout_fields
        ++ [("exercise_name", "squat"); ("exercise_name", "press");
            ("exercise_body_part", "legs"); ("exercise_body_part", "chest");
            ("exercise_sets", sets);
            ("exercise_reps", "5"); ("exercise_reps", "10")]).

(** Carol registers and logs in; someone else tries her address with
    another password. *)
Definition carol_registers : Request :=
  registration "carol" "carol@example.com" "looking-glass".
Definition carol_logs_in : Request :=
  credentials "carol@example.com" "looking-glass".

(** * Properties *)

(** ** Python strings on examples *)

Example strip_example : PyStr.strip "  bench press  " = "bench press".
Proof. reflexivity. Qed.

Example blank_examples :
  map blank [EmptyString; "   "; "squat"; " squat "] = [true; true; false; false].
Proof. reflexivity. Qed.

Example int_accepts :
  map (PyStr.int 4300) [" 12 "; "+7"; "-1_000"; "007"]
  = [Some 12; Some 7; Some (-1000); Some 7].
Proof. reflexivity. Qed.

Example int_refuses :
  map (PyStr.int 4300)
      [EmptyString; "five"; "1.5"; "_1"; "1_"; "1__0"; "+"; "- 1"; "1 2"; "0x10"]
  = [None; None; None; None; None; None; None; None; None; None].
Proof. reflexivity. Qed.

(** The separator U+001C is white space to [str.strip] and not to [int]:
    a name made of it is blank, a number next to it is malformed. *)
Example int_white_space_is_not_that_of_strip :
  let fs := String (ascii_of_nat 28) EmptyString in
  PyStr.strip (fs ++ "5") = "5"
  /\ blank fs = true
  /\ PyStr.int 4300 (fs ++ "5") = None
  /\ PyStr.int 4300 (String (ascii_of_nat 160) "5") = Some 5.
Proof. repeat split. Qed.

(** SQLite's [INTEGER] holds 2**63 - 1 and not 2**63. *)
Example sqlite_range :
  fits (engine := sqlite) 9223372036854775807 = true
  /\ fits (engine := sqlite) 9223372036854775808 = false
  /\ fst (serve (add_workout (python := cpython) (engine := sqlite)
                   (add_workout_with [squats_beyond_count])) as_alice)
     = internal_server_error OverflowError.
Proof. repeat split. Qed.

(** ** Running the monad *)

Lemma bind_ok {A B} {m : M A} (k : A -> M B) {w a w'} :
  m w = (Ok a, w') -> bind m k w = k a w'.
Proof. intros E. unfold bind. now rewrite E. Qed.

Lemma current_user_run w : current_user w = (Ok (who w), w).
Proof.
  unfold current_user, who, load_user, query, bind, ret.
  now destruct (session_user_id w).
Qed.

Lemma current_user_id_run w u :
  who w = Some u -> current_user_id w = (Ok (User.id u), w).
Proof.
  intros E. unfold current_user_id.
  rewrite (bind_ok _ (current_user_run w)). now rewrite E.
Qed.

Lemma who_rollback w : who (rollback w) = who w.
Proof. reflexivity. Qed.

Lemma login_required_anonymous view w :
  who w = None ->
  login_required view w
  = (Ok (redirect ep_login),
     mkWorld (committed w) (pending w) (session_user_id w)
             (flashed w ++ [(please_log_in, message)])).
Proof.
  intros E. unfold login_required, LOGIN_DISABLED. cbv iota.
  rewrite (bind_ok _ (current_user_run w)), E. reflexivity.
Qed.

Lemma login_required_authenticated view w u :
  who w = Some u -> login_required view w = view w.
Proof.
  intros E. unfold login_required, LOGIN_DISABLED. cbv iota.
  rewrite (bind_ok _ (current_user_run w)), E. reflexivity.
Qed.

(** A protected view served to the anonymous user never starts. *)
Lemma serve_anonymous view w :
  who w = None ->
  serve (login_required view) w
  = (redirect ep_login, flashing w [(please_log_in, message)]).
Proof.
  intros E. unfold serve.
  rewrite login_required_anonymous by (now rewrite who_rollback).
  reflexivity.
Qed.

(** ** Queries *)

Lemma get_some {A} (key : A -> Z) k rows r :
  get key k rows = Some r -> In r rows /\ key r = k.
Proof.
  unfold get. intros E. apply find_some in E.
  destruct E as [I E]. split; [exact I | now apply Z.eqb_eq].
Qed.

Lemma get_present {A} (key : A -> Z) k rows :
  In k (map key rows) -> exists r, get key k rows = Some r.
Proof.
  unfold get. induction rows as [|x rows IH]; simpl; [easy|].
  intros [E | I].
  - subst k. rewrite Z.eqb_refl. now exists x.
  - destruct (key x =? k); [now exists x | now apply IH].
Qed.

Lemma get_absent {A} (key : A -> Z) k rows :
  ~ In k (map key rows) -> get key k rows = None.
Proof.
  intros N. destruct (get key k rows) as [r|] eqn:E; [|reflexivity].
  apply get_some in E. destruct E as [I E]. subst k.
  exfalso. apply N. now apply in_map.
Qed.

(** ** C9: protected routes *)

(** C9. Each of the five protected views ([logout], [dashboard],
    [add_workout], [workout_history], [view_workout]), served to a request
    without an authenticated session, answers with the redirect to the login
    page; the tables and the session identity are left as they were (the
    only trace is Flask-Login's flashed message), whatever the request
    carries and whatever the tables hold, so the body of the view has not
    run. *)
Theorem protected_views_redirect_to_login {python : Interpreter}
  {engine : Engine} :
  forall (w : World) (request : Request) (workout_id : Z),
    who w = None ->
    let answer := (redirect ep_login, flashing w [(please_log_in, message)]) in
    serve logout w = answer
    /\ serve dashboard w = answer
    /\ serve (add_workout request) w = answer
    /\ serve workout_history w = answer
    /\ serve (view_workout workout_id) w = answer.
Proof.
  intros w request workout_id E answer. subst answer.
  repeat split; now apply serve_anonymous.
Qed.

Lemma protected_views_redirect_to_login_witness :
  who as_nobody = None
  /\ serve dashboard as_nobody
     = (redirect ep_login, flashing as_nobody [(please_log_in, message)]).
Proof.
  split; [reflexivity|].
  apply (@protected_views_redirect_to_login cpython sqlite as_nobody (post []) 1).
  reflexivity.
Defined.

(** ** C1: viewing a workout *)

Lemma serve_view_workout {engine : Engine} w u workout_id :
  who w = Some u ->
  serve (view_workout workout_id) w
  = if fits workout_id then
      match get Workout.id workout_id (workouts (committed w)) with
      | Some x =>
          (render_template
             (view_workout_html x
                (filter (fun e => Exercise.workout_id e =? Workout.id x)
                        (exercises (committed w)))),
           rollback w)
      | None => (not_found, rollback w)
      end
    else (internal_server_error OverflowError, rollback w).
Proof.
  intros U. unfold serve, view_workout.
  rewrite login_required_authenticated with (u := u) by exact U.
  unfold bind, query, get_or_404, ret, raise, all, filter_by. simpl.
  destruct (fits workout_id); [|reflexivity].
  now destruct (get Workout.id workout_id (workouts (committed w))).
Qed.

(** C1, as amended.  For a request of an authenticated user [u] and a
    workout id within the range of the engine's [INTEGER]: when the id is
    the key of a stored workout, [view_workout] renders a stored workout with
    that key together with the exercises that reference it, and nothing in
    the statement relates the owner of the workout to [u]: the answer is the
    same whoever [u] is; when the id is the key of no stored workout the
    answer is the not-found response.  For an id out of that range the
    lookup itself raises and the answer is the server error. *)
Theorem view_workout_ignores_owner {engine : Engine} :
  forall (w : World) (u : User.t) (workout_id : Z),
    who w = Some u ->
    (fits workout_id = true ->
     (In workout_id (map Workout.id (workouts (committed w))) ->
      exists workout,
        In workout (workouts (committed w))
        /\ Workout.id workout = workout_id
        /\ serve (view_workout workout_id) w
           = (render_template
                (view_workout_html workout
                   (filter (fun e => Exercise.workout_id e =? workout_id)
                           (exercises (committed w)))),
              rollback w))
     /\ (~ In workout_id (map Workout.id (workouts (committed w))) ->
         serve (view_workout workout_id) w = (not_found, rollback w)))
    /\ (fits workout_id = false ->
        serve (view_workout workout_id) w
        = (internal_server_error OverflowError, rollback w)).
Proof.
  intros w u k U. rewrite (serve_view_workout w u k U).
  split; intros F; rewrite F; [|reflexivity].
  split.
  - intros P. destruct (get_present Workout.id k _ P) as [x G].
    destruct (get_some _ _ _ _ G) as [I K].
    exists x. split; [exact I|]. split; [exact K|].
    rewrite G. now rewrite K.
  - intros N. apply get_absent in N. now rewrite N.
Qed.

Lemma view_workout_ignores_owner_witness :
  who as_bob = Some bob
  /\ Workout.user_id leg_day <> User.id bob
  /\ serve (view_workout (engine := sqlite) 1) as_bob
     = (render_template (view_workout_html leg_day [squat]), rollback as_bob)
  /\ serve (view_workout (engine := sqlite) 7) as_bob
     = (not_found, rollback as_bob).
Proof.
  split; [reflexivity|]. split; [discriminate|].
  destruct (@view_workout_ignores_owner sqlite as_bob bob 1 eq_refl)
    as [[P _] _]; [reflexivity|].
  destruct (@view_workout_ignores_owner sqlite as_bob bob 7 eq_refl)
    as [[_ N] _]; [reflexivity|].
  split.
  - destruct P as [x [I [_ E]]]; [simpl; now left|].
    destruct I as [<- | []]. exact E.
  - apply N. simpl. intros [E | []]. discriminate.
Defined.

(** C1 as stated fails on the id 9223372036854775808, which the route
    accepts and SQLite cannot hold: it is the key of no stored workout, and
    the answer is not the not-found response but the server error, the
    lookup raising [OverflowError]. *)
Lemma view_workout_beyond_the_integer_range :
  who as_bob = Some bob
  /\ ~ In 9223372036854775808 (map Workout.id (workouts (committed as_bob)))
  /\ serve (view_workout (engine := sqlite) 9223372036854775808) as_bob
     = (internal_server_error OverflowError, rollback as_bob)
  /\ fst (serve (view_workout (engine := sqlite) 9223372036854775808) as_bob)
     <> not_found.
Proof.
  split; [reflexivity|]. split; [simpl; intros [E | []]; discriminate|].
  split; [reflexivity | discriminate].
Qed.

(** ** C8: the dashboard and the history *)

Lemma attach_exercises_run (xs : list Workout.t) w :
  attach_exercises xs w = (Ok (map (fun x => (x, exercises_of x w)) xs), w).
Proof.
  induction xs as [|x xs IH]; [reflexivity|].
  simpl. unfold bind at 1. unfold query at 1.
  unfold bind at 1. rewrite IH. reflexivity.
Qed.

Lemma workouts_of_spec u w x :
  In x (workouts_of u w)
  <-> In x (workouts (committed w)) /\ Workout.user_id x = User.id u.
Proof.
  unfold workouts_of. rewrite filter_In, Z.eqb_eq. reflexivity.
Qed.

Lemma filter_selects {A} (p : A -> Prop) (b : A -> bool) table :
  (forall x, b x = true <-> p x) -> Selects p table (filter b table).
Proof.
  intros R. induction table as [|x table IH]; simpl; [constructor|].
  destruct (b x) eqn:E.
  - apply selects_keep; [now apply R | exact IH].
  - apply selects_drop; [|exact IH].
    intros P. apply R in P. congruence.
Qed.

(** C8. For a request of an authenticated user [u] the dashboard renders
    [u] and a list of workouts that holds every stored workout whose
    [user_id] is the id of [u] and no other, as often and in the order the
    table has them (nothing is filtered out, reordered or cut off), and it
    leaves the world as it was.  The history page lists the same workouts,
    each with its exercises. *)
Theorem dashboard_lists_own_workouts :
  forall (w : World) (u : User.t),
    who w = Some u ->
    exists own : list Workout.t,
      serve dashboard w
      = (render_template (dashboard_html (Some u) own), rollback w)
      /\ (forall x, In x own
                    <-> In x (workouts (committed w))
                        /\ Workout.user_id x = User.id u)
      /\ Selects (fun x => Workout.user_id x = User.id u)
                 (workouts (committed w)) own
      /\ serve workout_history w
         = (render_template
              (workout_history_html (map (fun x => (x, exercises_of x w)) own)),
            rollback w).
Proof.
  intros w u U. exists (workouts_of u w).
  split; [|split; [|split]].
  - unfold serve, dashboard.
    rewrite login_required_authenticated with (u := u) by exact U.
    rewrite (bind_ok _ (current_user_id_run (rollback w) u U)).
    unfold bind at 1. unfold query at 1.
    rewrite (bind_ok _ (current_user_run (rollback w))).
    rewrite who_rollback, U. reflexivity.
  - intros x. apply workouts_of_spec.
  - apply filter_selects. intros x. apply Z.eqb_eq.
  - unfold serve, workout_history.
    rewrite login_required_authenticated with (u := u) by exact U.
    rewrite (bind_ok _ (current_user_id_run (rollback w) u U)).
    unfold bind at 1. unfold query at 1.
    unfold bind at 1. unfold all, filter_by.
    rewrite attach_exercises_run. reflexivity.
Qed.

Lemma dashboard_lists_own_workouts_witness :
  who as_alice = Some alice
  /\ exists own,
       serve dashboard as_alice
       = (render_template (dashboard_html (Some alice) own), rollback as_alice)
       /\ In leg_day own.
Proof.
  split; [reflexivity|].
  destruct (dashboard_lists_own_workouts as_alice alice eq_refl)
    as [own [E [I _]]].
  exists own. split; [exact E|].
  apply I. split; [simpl; now left | reflexivity].
Defined.

(** ** Registration and login *)

Lemma first_filter_by {A} (p : A -> bool) rows :
  first (filter_by p rows) = find p rows.
Proof.
  unfold first, filter_by.
  induction rows as [|x rows IH]; simpl; [reflexivity|].
  now destruct (p x).
Qed.

Lemma find_present {A} (p : A -> bool) rows x :
  In x rows -> p x = true -> exists y, find p rows = Some y.
Proof.
  intros I P. destruct (find p rows) as [y|] eqn:E; [now exists y|].
  rewrite (find_none _ _ E x I) in P. discriminate.
Qed.

(** The user a successful registration stores. *)
Lemma serve_register {engine : Engine}
  {hasher : Werkzeug} {validator : EmailValidator} (request : Request) (w : World) :
  let form := RegisterForm.bind_request request in
  RegisterForm.validate_on_submit form = true ->
  serve (register request) w
  = match user_with_email (data (RegisterForm.email form)) w with
    | Some _ => (redirect ep_register, flashing w [(email_taken, danger)])
    | None =>
        match user_with_username (data (RegisterForm.username form)) w with
        | Some _ => (redirect ep_register, flashing w [(username_taken, danger)])
        | None =>
            (redirect ep_login,
             mkWorld
               (mkDatabase
                  (users (committed w)
                   ++ [User.mk (next_id (map User.id (users (committed w))))
                         (data (RegisterForm.username form))
                         (data (RegisterForm.email form))
                         (generate_password_hash (salt request)
                            (data (RegisterForm.password form)))])
                  (workouts (committed w)) (exercises (committed w)))
               empty_db (session_user_id w)
               (flashed w ++ [(account_created, success)]))
        end
    end.
Proof.
  intros form V. unfold serve, register. fold form. rewrite V.
  unfold bind at 1. unfold query at 1.
  rewrite first_filter_by. fold (user_with_email (data (RegisterForm.email form)) (rollback w)).
  change (user_with_email (data (RegisterForm.email form)) (rollback w))
    with (user_with_email (data (RegisterForm.email form)) w).
  destruct (user_with_email (data (RegisterForm.email form)) w); [reflexivity|].
  unfold bind at 1. unfold query at 1.
  rewrite first_filter_by.
  change (find _ (users (committed (rollback w))))
    with (user_with_username (data (RegisterForm.username form)) w).
  destruct (user_with_username (data (RegisterForm.username form)) w); [reflexivity|].
  unfold bind, session_add_user, session_commit, flash, ret, set_password. simpl.
  rewrite !app_nil_r. reflexivity.
Qed.

(** C3. A registration submission (a request the registration form
    validates) whose e-mail address is the address of a stored user is
    answered with the redirect back to the registration page and the
    flashed message that the address is taken; the tables, the user table
    among them, are those of before. *)
Theorem register_rejects_taken_email {engine : Engine}
  {hasher : Werkzeug} {validator : EmailValidator} :
  forall (w : World) (request : Request) (u : User.t),
    RegisterForm.validate_on_submit (RegisterForm.bind_request request) = true ->
    In u (users (committed w)) ->
    RegisterForm.email (RegisterForm.bind_request request) = Some (User.email u) ->
    serve (register request) w
    = (redirect ep_register, flashing w [(email_taken, danger)])
    /\ users (committed (snd (serve (register request) w))) = users (committed w).
Proof.
  intros w request u V I E.
  assert (S : serve (register request) w
              = (redirect ep_register, flashing w [(email_taken, danger)])).
  { rewrite (serve_register request w V), E. simpl.
    destruct (find_present (fun x => String.eqb (User.email x) (User.email u))
                _ u I (String.eqb_refl _)) as [y F].
    unfold user_with_email. now rewrite F. }
  split; [exact S | now rewrite S].
Qed.

Lemma register_rejects_taken_email_witness :
  RegisterForm.validate_on_submit (validator := at_sign_validator)
    (RegisterForm.bind_request taken_email) = true
  /\ In alice (users (committed as_nobody))
  /\ serve (register (engine := sqlite)
          (hasher := plain_hasher) (validator := at_sign_validator)
             taken_email) as_nobody
     = (redirect ep_register, flashing as_nobody [(email_taken, danger)]).
Proof.
  split; [reflexivity|]. split; [simpl; now left|].
  apply (@register_rejects_taken_email sqlite plain_hasher at_sign_validator
           as_nobody taken_email alice);
    [reflexivity | simpl; now left | reflexivity].
Defined.

Lemma user_with_email_none e w :
  user_with_email e w = None
  <-> forall u, In u (users (committed w)) -> User.email u <> e.
Proof.
  unfold user_with_email. split.
  - intros F u I E. apply (find_none _ _ F) in I.
    apply String.eqb_neq in I. contradiction.
  - intros N. destruct (find _ _) as [u|] eqn:F; [|reflexivity].
    apply find_some in F. destruct F as [I E].
    apply String.eqb_eq in E. now apply N in I.
Qed.

Lemma user_with_username_some n w :
  user_with_username n w <> None
  <-> exists u, In u (users (committed w)) /\ User.username u = n.
Proof.
  unfold user_with_username. split.
  - destruct (find _ _) as [u|] eqn:F; [intros _ | congruence].
    apply find_some in F. destruct F as [I E].
    apply String.eqb_eq in E. now exists u.
  - intros [u [I E]].
    destruct (find_present (fun x => String.eqb (User.username x) n) _ u I)
      as [y F]; [now apply String.eqb_eq|].
    rewrite F. discriminate.
Qed.

Lemma flashing_inj w a b : flashing w [a] = flashing w [b] -> a = b.
Proof.
  unfold flashing. intros E. injection E as E.
  apply app_inv_head in E. now injection E.
Qed.

(** C4. A registration submission is checked for its e-mail address first
    and for its user name second: when both the address and the name are
    those of stored users the answer is the rejection for the address; the
    rejection for the name is given exactly when no stored user has the
    address and some stored user has the name. *)
Theorem register_checks_email_before_username {engine : Engine}
  {hasher : Werkzeug} {validator : EmailValidator} :
  forall (w : World) (request : Request),
    let form := RegisterForm.bind_request request in
    RegisterForm.validate_on_submit form = true ->
    ((exists u, In u (users (committed w))
                /\ User.email u = data (RegisterForm.email form)) ->
     (exists u, In u (users (committed w))
                /\ User.username u = data (RegisterForm.username form)) ->
     serve (register request) w
     = (redirect ep_register, flashing w [(email_taken, danger)]))
    /\ (serve (register request) w
        = (redirect ep_register, flashing w [(username_taken, danger)])
        <-> (forall u, In u (users (committed w))
                       -> User.email u <> data (RegisterForm.email form))
            /\ (exists u, In u (users (committed w))
                          /\ User.username u = data (RegisterForm.username form))).
Proof.
  intros w request form V.
  rewrite (serve_register request w V). fold form.
  rewrite <- user_with_email_none, <- user_with_username_some.
  split.
  - intros [u [I E]] _.
    destruct (user_with_email _ w) eqn:F; [reflexivity|].
    exfalso. revert I E. revert u. now apply user_with_email_none.
  - destruct (user_with_email _ w) eqn:F.
    + split.
      * intros E. apply (f_equal snd) in E. simpl in E.
        apply flashing_inj in E. discriminate.
      * intros [N _]. discriminate.
    + destruct (user_with_username _ w) eqn:G.
      * split; [intros _; split; [reflexivity | discriminate] | reflexivity].
      * split.
        -- intros E. discriminate.
        -- intros [_ N]. now contradiction N.
Qed.

Lemma register_checks_email_before_username_witness :
  RegisterForm.validate_on_submit (validator := at_sign_validator)
    (RegisterForm.bind_request taken_email_and_username) = true
  /\ serve (register (engine := sqlite)
          (hasher := plain_hasher) (validator := at_sign_validator)
             taken_email_and_username) as_nobody
     = (redirect ep_register, flashing as_nobody [(email_taken, danger)])
  /\ serve (register (engine := sqlite)
          (hasher := plain_hasher) (validator := at_sign_validator)
             taken_username) as_nobody
     = (redirect ep_register, flashing as_nobody [(username_taken, danger)]).
Proof.
  split; [reflexivity|]. split.
  - apply (@register_checks_email_before_username sqlite plain_hasher at_sign_validator
             as_nobody taken_email_and_username eq_refl).
    + exists alice. split; [simpl; now left | reflexivity].
    + exists bob. split; [simpl; right; now left | reflexivity].
  - apply (@register_checks_email_before_username sqlite plain_hasher at_sign_validator
             as_nobody taken_username eq_refl).
    split.
    + intros u [<- | [<- | []]]; discriminate.
    + exists bob. split; [simpl; right; now left | reflexivity].
Defined.

Lemma serve_login {hasher : Werkzeug} {validator : EmailValidator}
  (request : Request) (w : World) :
  let form := LoginForm.bind_request request in
  LoginForm.validate_on_submit form = true ->
  serve (login request) w
  = match user_with_email (data (LoginForm.email form)) w with
    | Some u =>
        if check_password u (data (LoginForm.password form))
        then (redirect ep_dashboard,
              mkWorld (committed w) empty_db (Some (User.id u)) (flashed w))
        else (render_template (login_html form),
              flashing w [(invalid_credentials, danger)])
    | None =>
        (render_template (login_html form),
         flashing w [(invalid_credentials, danger)])
    end.
Proof.
  intros form V. unfold serve, login. fold form. rewrite V.
  unfold bind at 1. unfold query at 1.
  rewrite first_filter_by.
  change (find _ (users (committed (rollback w))))
    with (user_with_email (data (LoginForm.email form)) w).
  destruct (user_with_email (data (LoginForm.email form)) w) as [u|];
    [|reflexivity].
  destruct (check_password u (data (LoginForm.password form))); reflexivity.
Qed.

(** C5. Two runs of one login submission, the first in a world where no
    stored user has the address, the second in a world where a stored user
    has it and the password does not verify against the stored hash: both
    are answered with the same response (the login page around the submitted
    form) and the same single flashed message, and in both the session
    identity and the tables are those of before, so no identity is
    established. *)
Theorem login_failures_are_indistinguishable
  {hasher : Werkzeug} {validator : EmailValidator} :
  forall (w1 w2 : World) (request : Request) (u : User.t),
    let form := LoginForm.bind_request request in
    LoginForm.validate_on_submit form = true ->
    user_with_email (data (LoginForm.email form)) w1 = None ->
    user_with_email (data (LoginForm.email form)) w2 = Some u ->
    check_password u (data (LoginForm.password form)) = false ->
    serve (login request) w1
    = (render_template (login_html form), flashing w1 [(invalid_credentials, danger)])
    /\ serve (login request) w2
       = (render_template (login_html form), flashing w2 [(invalid_credentials, danger)])
    /\ fst (serve (login request) w1) = fst (serve (login request) w2)
    /\ session_user_id (snd (serve (login request) w1)) = session_user_id w1
    /\ session_user_id (snd (serve (login request) w2)) = session_user_id w2.
Proof.
  intros w1 w2 request u form V N S C.
  assert (E1 := serve_login request w1 V).
  assert (E2 := serve_login request w2 V).
  fold form in E1, E2. rewrite N in E1. rewrite S, C in E2.
  rewrite E1, E2. repeat split.
Qed.

Lemma login_failures_are_indistinguishable_witness :
  LoginForm.validate_on_submit (validator := at_sign_validator)
    (LoginForm.bind_request wrong_password) = true
  /\ user_with_email "alice@example.com" (mkWorld empty_db empty_db None []) = None
  /\ user_with_email "alice@example.com" as_nobody = Some alice
  /\ check_password (hasher := plain_hasher) alice "guess" = false
  /\ fst (serve (login (hasher := plain_hasher) (validator := at_sign_validator)
                   wrong_password) (mkWorld empty_db empty_db None []))
     = fst (serve (login (hasher := plain_hasher) (validator := at_sign_validator)
                     wrong_password) as_nobody).
Proof.
  split; [reflexivity|]. split; [reflexivity|].
  split; [reflexivity|]. split; [reflexivity|].
  apply (@login_failures_are_indistinguishable plain_hasher at_sign_validator
           (mkWorld empty_db empty_db None []) as_nobody wrong_password alice
           eq_refl eq_refl eq_refl eq_refl).
Defined.

(** ** Adding a workout *)

(** *** Blank names *)

Lemma lstrip_all_space s : PyStr.all_space s = true -> PyStr.lstrip s = EmptyString.
Proof.
  induction s as [|c s IH]; simpl; [reflexivity|].
  intros E. apply andb_true_iff in E. destruct E as [C S].
  rewrite C. now apply IH.
Qed.

Lemma lstrip_not_all_space s :
  PyStr.all_space s = false ->
  exists c rest, PyStr.lstrip s = String c rest /\ PyStr.isspace c = false.
Proof.
  induction s as [|c s IH]; simpl; [discriminate|].
  destruct (PyStr.isspace c) eqn:C; simpl.
  - exact IH.
  - intros _. now exists c, s.
Qed.

Lemma rstrip_keeps_head c rest :
  PyStr.isspace c = false -> PyStr.truthy (PyStr.rstrip (String c rest)) = true.
Proof.
  intros C. simpl. destruct (PyStr.rstrip rest); [now rewrite C | reflexivity].
Qed.

(** A name is skipped by the loop exactly when it is blank. *)
Lemma truthy_strip s : PyStr.truthy (PyStr.strip s) = negb (blank s).
Proof.
  unfold blank, PyStr.strip. destruct (PyStr.all_space s) eqn:E.
  - now rewrite lstrip_all_space.
  - destruct (lstrip_not_all_space s E) as [c [rest [L C]]].
    rewrite L. now apply rstrip_keeps_head.
Qed.

(** *** The loop *)

Lemma fold_max_snoc l k :
  fold_right Z.max 0 (l ++ [k]) = Z.max (fold_right Z.max 0 l) k.
Proof.
  induction l as [|x l IH]; simpl; [lia|]. rewrite IH. lia.
Qed.

Lemma fold_max_nonneg l : 0 <= fold_right Z.max 0 l.
Proof. induction l as [|x l IH]; simpl; lia. Qed.

Lemma fold_max_bound l k : In k l -> k <= fold_right Z.max 0 l.
Proof.
  induction l as [|x l IH]; simpl; [easy|].
  intros [E | I]; [lia | apply IH in I; lia].
Qed.

(** The next key is not a key of the table. *)
Lemma next_id_fresh l : ~ In (next_id l) l.
Proof.
  intros I. apply fold_max_bound in I. unfold next_id in I. lia.
Qed.

Lemma next_id_snoc l : next_id (l ++ [next_id l]) = next_id l + 1.
Proof.
  unfold next_id. rewrite fold_max_snoc.
  pose proof (fold_max_nonneg l). lia.
Qed.

Lemma queue_nil wid w : queue wid [] w = w.
Proof.
  destruct w as [c [pu pw pe] s f]. unfold queue. simpl.
  now rewrite app_nil_r.
Qed.

Lemma next_id_insert l e :
  Exercise.id e = next_id (map Exercise.id l) ->
  next_id (map Exercise.id (l ++ [e])) = next_id (map Exercise.id l) + 1.
Proof.
  intros E. rewrite map_app. simpl. rewrite E. apply next_id_snoc.
Qed.

Lemma queue_cons wid x xs w :
  queue wid xs (queue wid [x] w) = queue wid (x :: xs) w.
Proof.
  unfold queue. simpl.
  rewrite (app_assoc (exercises (committed w))).
  rewrite next_id_insert by reflexivity.
  now rewrite <- app_assoc.
Qed.

(** The body of the loop does what [step] says. *)
Lemma add_exercise_run {python : Interpreter} workout names body_parts sets reps i w :
  add_exercise workout names body_parts sets reps i w
  = match step names body_parts sets reps i with
    | Skipped => (Ok tt, w)
    | Added x => (Ok tt, queue (Workout.id workout) [x] w)
    | Failed e => (Raise e, w)
    end.
Proof.
  unfold add_exercise, step, getitem, int, bind, ret, raise.
  destruct (nth_error names i) as [name|]; [|reflexivity].
  destruct (PyStr.truthy (PyStr.strip name)); [|reflexivity].
  destruct (nth_error body_parts i) as [body_part|]; [|reflexivity].
  destruct (nth_error sets i) as [s|]; [|reflexivity].
  destruct (PyStr.int int_max_str_digits s) as [sv|]; [|reflexivity].
  destruct (nth_error reps i) as [r|]; [|reflexivity].
  destruct (PyStr.int int_max_str_digits r) as [rv|]; reflexivity.
Qed.

(** The loop queues the entries collected before the first failure and
    raises that failure. *)
Lemma for_each_run {python : Interpreter} workout names body_parts sets reps indices :
  forall w,
    for_each indices (add_exercise workout names body_parts sets reps) w
    = (match snd (collect (map (step names body_parts sets reps) indices)) with
       | None => Ok tt
       | Some e => Raise e
       end,
       queue (Workout.id workout)
             (fst (collect (map (step names body_parts sets reps) indices))) w).
Proof.
  induction indices as [|i indices IH]; intros w; simpl.
  - now rewrite queue_nil.
  - unfold bind. rewrite add_exercise_run.
    destruct (step names body_parts sets reps i) as [|x|e].
    + apply IH.
    + rewrite IH.
      destruct (collect (map (step names body_parts sets reps) indices))
        as [xs f].
      simpl. now rewrite queue_cons.
    + simpl. now rewrite queue_nil.
Qed.

(** No step fails with [NotFound]. *)
Lemma collect_failure ss e :
  snd (collect ss) = Some e -> In (Failed e) ss.
Proof.
  induction ss as [|[|x|e'] ss IH]; simpl.
  - discriminate.
  - intros E. right. now apply IH.
  - destruct (collect ss) as [xs f]. simpl in *. intros E. right. now apply IH.
  - intros E. injection E as <-. now left.
Qed.

Lemma step_not_found {python : Interpreter} names body_parts sets reps i :
  step names body_parts sets reps i <> Failed NotFound.
Proof.
  unfold step.
  destruct (nth_error names i) as [name|]; [|discriminate].
  destruct (PyStr.truthy (PyStr.strip name)); [|discriminate].
  destruct (nth_error body_parts i) as [body_part|]; [|discriminate].
  destruct (nth_error sets i) as [s|]; [|discriminate].
  destruct (PyStr.int int_max_str_digits s) as [sv|]; [|discriminate].
  destruct (nth_error reps i) as [r|]; [|discriminate].
  destruct (PyStr.int int_max_str_digits r) as [rv|]; discriminate.
Qed.

Lemma step_failure_kind {python : Interpreter} names body_parts sets reps i e :
  step names body_parts sets reps i = Failed e -> e = IndexError \/ e = ValueError.
Proof.
  unfold step.
  destruct (nth_error names i) as [name|]; [|intros [= <-]; now left].
  destruct (PyStr.truthy (PyStr.strip name)); [|discriminate].
  destruct (nth_error body_parts i) as [body_part|]; [|intros [= <-]; now left].
  destruct (nth_error sets i) as [s|]; [|intros [= <-]; now left].
  destruct (PyStr.int int_max_str_digits s) as [sv|]; [|intros [= <-]; now right].
  destruct (nth_error reps i) as [r|]; [|intros [= <-]; now left].
  destruct (PyStr.int int_max_str_digits r) as [rv|]; [discriminate|].
  intros [= <-]; now right.
Qed.

(** A non-blank name at an index one of the other lists does not reach
    makes the step fail. *)
Lemma step_out_of_range {python : Interpreter} names body_parts sets reps i name :
  nth_error names i = Some name ->
  blank name = false ->
  (List.length body_parts <= i \/ List.length sets <= i \/ List.length reps <= i)%nat ->
  exists e, step names body_parts sets reps i = Failed e.
Proof.
  intros N B Short. unfold step. rewrite N, truthy_strip, B. simpl.
  destruct (nth_error body_parts i) as [body_part|] eqn:EB; [|now eexists].
  destruct (nth_error sets i) as [s|] eqn:ES; [|now eexists].
  destruct (PyStr.int int_max_str_digits s) as [sv|]; [|now eexists].
  destruct (nth_error reps i) as [r|] eqn:ER; [|now eexists].
  exfalso.
  assert (i < List.length body_parts)%nat by (apply nth_error_Some; congruence).
  assert (i < List.length sets)%nat by (apply nth_error_Some; congruence).
  assert (i < List.length reps)%nat by (apply nth_error_Some; congruence).
  lia.
Qed.

(** A step fails with [ValueError] only on a value that is there and is
    not a well-formed integer. *)
Lemma step_value_error {python : Interpreter} names body_parts sets reps i :
  step names body_parts sets reps i = Failed ValueError ->
  exists name s,
    nth_error names i = Some name
    /\ blank name = false
    /\ (nth_error sets i = Some s \/ nth_error reps i = Some s)
    /\ ~ well_formed_integer s.
Proof.
  unfold step, well_formed_integer.
  destruct (nth_error names i) as [name|]; [|discriminate].
  rewrite truthy_strip.
  destruct (blank name) eqn:B; simpl; [discriminate|].
  destruct (nth_error body_parts i) as [body_part|]; [|discriminate].
  destruct (nth_error sets i) as [s|]; [|discriminate].
  destruct (PyStr.int int_max_str_digits s) as [sv|] eqn:ES.
  - destruct (nth_error reps i) as [r|]; [|discriminate].
    destruct (PyStr.int int_max_str_digits r) as [rv|] eqn:ER; [discriminate|].
    intros _. exists name, r. repeat split; auto.
  - intros _. exists name, s. repeat split; auto.
Qed.

Lemma storable_number {engine : Engine} wid xs :
  forall k, forallb storable (number wid k xs) = forallb entry_fits xs.
Proof.
  induction xs as [|x xs IH]; intros k; simpl; [reflexivity|].
  now rewrite IH.
Qed.

(** What a valid add-workout submission of an authenticated user does: the
    workout is committed, then the loop runs; if it fails the request ends
    in a server error and the exercises queued so far are rolled back; else
    they are committed, unless the sets or reps of one of them are out of
    the range of the engine: then the commit raises, the request ends in a
    server error and none of them is stored. *)
Lemma serve_add_workout {engine : Engine} {python : Interpreter}
  (request : Request) (w : World) (u : User.t) :
  who w = Some u ->
  WorkoutForm.validate_on_submit (WorkoutForm.bind_request request) = true ->
  let x := new_workout w u request in
  let run :=
    collect (map (step (getlist "exercise_name" request)
                       (getlist "exercise_body_part" request)
                       (getlist "exercise_sets" request)
                       (getlist "exercise_reps" request))
                 (range (List.length (getlist "exercise_name" request)))) in
  serve (add_workout request) w
  = match snd run with
    | None =>
        if forallb entry_fits (fst run) then
          (redirect ep_dashboard,
           with_workout w x
             (number (Workout.id x)
                     (next_id (map Exercise.id (exercises (committed w))))
                     (fst run))
             [(workout_added, success)])
        else (internal_server_error OverflowError, with_workout w x [] [])
    | Some e => (internal_server_error e, with_workout w x [] [])
    end.
Proof.
  intros U V x run. unfold serve, add_workout.
  rewrite login_required_authenticated with (u := u) by exact U.
  rewrite V.
  rewrite (bind_ok _ (current_user_id_run (rollback w) u U)).
  unfold bind at 1. unfold session_add_workout at 1.
  unfold bind at 1. unfold session_commit at 1.
  cbn [rollback pending committed exercises workouts users empty_db forallb
       session_user_id flashed app].
  unfold bind at 1. rewrite for_each_run. fold run.
  destruct (snd run) as [e|] eqn:F.
  - assert (N : e <> NotFound).
    { intros ->. apply collect_failure in F. apply in_map_iff in F.
      destruct F as [i [F _]]. now apply step_not_found in F. }
    unfold with_workout. simpl. rewrite !app_nil_r.
    destruct e; try reflexivity. now contradiction N.
  - unfold bind at 1. unfold session_commit at 1, queue.
    cbn [pending committed exercises workouts users session_user_id flashed
         empty_db app].
    rewrite storable_number.
    destruct (forallb entry_fits (fst run)).
    + unfold bind, flash, ret, with_workout. simpl.
      rewrite !app_nil_r. reflexivity.
    + unfold with_workout. simpl. rewrite !app_nil_r. reflexivity.
Qed.

(** *** Rows *)

Lemma map_range {A B} (g : nat -> B) (h : A -> B) (l : list A) :
  (forall i x, nth_error l i = Some x -> g i = h x) ->
  map g (range (List.length l)) = map h l.
Proof.
  unfold range. revert g. induction l as [|x l IH]; intros g E; [reflexivity|].
  simpl. rewrite (E 0%nat x eq_refl). f_equal.
  rewrite <- seq_shift, map_map. apply IH.
  intros i y N. now apply (E (S i)).
Qed.

Lemma steps_of_rows {python : Interpreter} request rows :
  submits request rows ->
  map (step (getlist "exercise_name" request)
            (getlist "exercise_body_part" request)
            (getlist "exercise_sets" request)
            (getlist "exercise_reps" request))
      (range (List.length (getlist "exercise_name" request)))
  = map row_step rows.
Proof.
  intros [N [B [S R]]]. rewrite N, B, S, R.
  rewrite length_map. apply map_range.
  intros i r E. unfold step, row_step.
  rewrite !nth_error_map, E. simpl.
  destruct (PyStr.truthy (PyStr.strip (row_name r))); [|reflexivity].
  destruct (PyStr.int int_max_str_digits (row_sets r)); [|reflexivity].
  destruct (PyStr.int int_max_str_digits (row_reps r)); reflexivity.
Qed.

Lemma collect_some_failure ss e0 :
  In (Failed e0) ss -> exists e, snd (collect ss) = Some e.
Proof.
  induction ss as [|[|x|e'] ss IH]; simpl.
  - easy.
  - intros [E | I]; [discriminate | now apply IH].
  - intros [E | I]; [discriminate|].
    destruct (IH I) as [e F]. destruct (collect ss) as [xs f].
    now exists e.
  - intros _. now exists e'.
Qed.

Lemma storable_is_well_formed {python : Interpreter} {engine : Engine} s :
  storable_integer s -> well_formed_integer s.
Proof. intros [z [E _]]. unfold well_formed_integer. congruence. Qed.

(** Rows whose non-blank names come with numbers that are well formed and
    in the range of the engine are all collected, one entry per non-blank
    row, and the entries can be stored. *)
Lemma collect_rows {python : Interpreter} {engine : Engine} wid rows :
  (forall r, In r rows -> blank (row_name r) = false ->
             storable_integer (row_sets r) /\ storable_integer (row_reps r)) ->
  forall k,
    snd (collect (map row_step rows)) = None
    /\ forallb entry_fits (fst (collect (map row_step rows))) = true
    /\ Forall2 (persisted_as wid)
         (filter (fun r => negb (blank (row_name r))) rows)
         (number wid k (fst (collect (map row_step rows)))).
Proof.
  induction rows as [|r rows IH]; intros W k; simpl.
  - repeat split. constructor.
  - assert (W' : forall r', In r' rows -> blank (row_name r') = false ->
                  storable_integer (row_sets r')
                  /\ storable_integer (row_reps r')).
    { intros r' I. apply W. now right. }
    destruct (blank (row_name r)) eqn:B; simpl.
    + assert (E : row_step r = Skipped)
        by (unfold row_step; now rewrite truthy_strip, B).
      rewrite E. now apply IH.
    + destruct (W r (or_introl eq_refl) B) as [[sv [ES FS]] [rv [ER FR]]].
      assert (E : row_step r = Added (mkEntry (row_body_part r) (row_name r) sv rv))
        by (unfold row_step; now rewrite truthy_strip, B, ES, ER).
      rewrite E.
      destruct (IH W' (k + 1)) as [F [Fit P]].
      destruct (collect (map row_step rows)) as [xs f]. simpl in *.
      split; [exact F|]. split.
      * unfold entry_fits at 1. simpl. now rewrite FS, FR, Fit.
      * constructor; [|exact P].
        unfold persisted_as. simpl. now rewrite ES, ER.
Qed.

(** Four lists of one length are the columns of a list of rows: every
    submission whose repeated fields are aligned carries rows. *)
Lemma aligned_lists_are_rows (names : list string) :
  forall body_parts sets reps : list string,
    List.length body_parts = List.length names ->
    List.length sets = List.length names ->
    List.length reps = List.length names ->
    exists rows,
      names = map row_name rows /\ body_parts = map row_body_part rows
      /\ sets = map row_sets rows /\ reps = map row_reps rows.
Proof.
  induction names as [|n names IH];
    intros [|b body_parts] [|s sets] [|r reps] LB LS LR; try discriminate.
  - now exists [].
  - injection LB as LB. injection LS as LS. injection LR as LR.
    destruct (IH body_parts sets reps LB LS LR) as [rows [-> [-> [-> ->]]]].
    now exists (mkRow n b s r :: rows).
Qed.

Lemma aligned_submits request :
  let names := getlist "exercise_name" request in
  List.length (getlist "exercise_body_part" request) = List.length names ->
  List.length (getlist "exercise_sets" request) = List.length names ->
  List.length (getlist "exercise_reps" request) = List.length names ->
  exists rows, submits request rows.
Proof.
  intros names LB LS LR.
  destruct (aligned_lists_are_rows names _ _ _ LB LS LR) as [rows R].
  now exists rows.
Qed.

(** ** C2, C6, C10: the exercise rows of a new workout *)

(** C2, as amended.  For an add-workout submission of an authenticated
    user that carries the exercise rows [rows], if the sets and reps of
    every row with a non-blank name are well-formed integers within the
    range of the engine's [INTEGER], the request stores the new workout
    and, for each row with a non-blank name and for no other row, in
    order, one exercise with the values of the row that references the new
    workout.  With three rows of which the second alone has a blank name,
    the exercises stored are exactly two, and both reference the new
    workout. *)
Theorem add_workout_persists_non_blank_rows {engine : Engine}
  {python : Interpreter} :
  forall (w : World) (u : User.t) (request : Request) (rows : list ExerciseRow),
    who w = Some u ->
    WorkoutForm.validate_on_submit (WorkoutForm.bind_request request) = true ->
    submits request rows ->
    (forall r, In r rows -> blank (row_name r) = false ->
               storable_integer (row_sets r) /\ storable_integer (row_reps r)) ->
    let x := new_workout w u request in
    exists es : list Exercise.t,
      serve (add_workout request) w
      = (redirect ep_dashboard, with_workout w x es [(workout_added, success)])
      /\ Forall2 (persisted_as (Workout.id x))
                 (filter (fun r => negb (blank (row_name r))) rows) es
      /\ (forall r1 r2 r3,
             rows = [r1; r2; r3] ->
             blank (row_name r1) = false ->
             blank (row_name r2) = true ->
             blank (row_name r3) = false ->
             exists e1 e3,
               es = [e1; e3]
               /\ persisted_as (Workout.id x) r1 e1
               /\ persisted_as (Workout.id x) r3 e3).
Proof.
  intros w u request rows U V S W x.
  pose proof (serve_add_workout request w u U V) as E. cbv zeta in E.
  rewrite (steps_of_rows request rows S) in E. fold x in E.
  destruct (collect_rows (Workout.id x) rows W
              (next_id (map Exercise.id (exercises (committed w)))))
    as [F [Fit P]].
  rewrite F, Fit in E.
  remember (number (Workout.id x)
              (next_id (map Exercise.id (exercises (committed w))))
              (fst (collect (map row_step rows)))) as es eqn:Es.
  clear Es. exists es. split; [exact E|]. split; [exact P|].
  intros r1 r2 r3 -> B1 B2 B3.
  cbn [filter] in P. rewrite B1, B2, B3 in P. cbn [negb] in P.
  inversion P as [|a e1 l es1 P1 P' Ea Ee]; subst.
  inversion P' as [|a e3 l es3 P3 P'' Ea' Ee']; subst.
  inversion P''; subst.
  exists e1, e3. split; [reflexivity | split; assumption].
Qed.

Lemma add_workout_persists_non_blank_rows_witness :
  who as_alice = Some alice
  /\ exists es,
       serve (add_workout (python := cpython) (engine := sqlite) three_rows)
             as_alice
       = (redirect ep_dashboard,
          with_workout as_alice (new_workout as_alice alice three_rows) es
            [(workout_added, success)])
       /\ List.length es = 2%nat.
Proof.
  split; [reflexivity|].
  destruct (@add_workout_persists_non_blank_rows sqlite cpython as_alice alice
              three_rows [squats; no_name; presses] eq_refl eq_refl)
    as [es [E [P _]]].
  - repeat split.
  - intros r [<- | [<- | [<- | []]]]; intros B; try discriminate B;
      split; eexists; split; reflexivity.
  - exists es. split; [exact E|].
    apply Forall2_length in P. now rewrite <- P.
Defined.

(** C2 as stated fails on [three_rows_one_malformed]: its three rows have
    names that are not blank, blank, not blank, and the request stores no
    exercise at all, the coercion of "five" at line 168 raising
    [ValueError]. *)
Lemma three_rows_one_malformed_persists_nothing :
  who as_alice = Some alice
  /\ WorkoutForm.validate_on_submit
       (WorkoutForm.bind_request three_rows_one_malformed) = true
  /\ submits three_rows_one_malformed [squats_in_words; no_name; presses]
  /\ map (fun r => blank (row_name r)) [squats_in_words; no_name; presses]
     = [false; true; false]
  /\ serve (add_workout (python := cpython) (engine := sqlite)
          three_rows_one_malformed) as_alice
     = (internal_server_error ValueError,
        with_workout as_alice (new_workout as_alice alice three_rows_one_malformed)
          [] [])
  /\ exercises
       (committed
          (snd (serve (add_workout (python := cpython) (engine := sqlite)
                  three_rows_one_malformed)
                  as_alice)))
     = exercises (committed as_alice).
Proof.
  repeat split.
Qed.

(** The run stops at the first step that fails: when a step fails, the
    run fails with the failure of that step or of one before it. *)
Lemma collect_first_failure before e after :
  exists e',
    snd (collect (before ++ Failed e :: after)) = Some e'
    /\ In (Failed e') (before ++ [Failed e]).
Proof.
  induction before as [|[|x|e0] before IH]; simpl.
  - exists e. split; [reflexivity | now left].
  - destruct IH as [e' [F I]]. exists e'. split; [exact F | now right].
  - destruct IH as [e' [F I]]. exists e'.
    destruct (collect (before ++ Failed e :: after)) as [xs f].
    split; [exact F | now right].
  - exists e0. split; [reflexivity | now left].
Qed.

Lemma range_split n i :
  (i < n)%nat -> range n = (seq 0 i ++ i :: seq (S i) (n - S i))%list.
Proof.
  intros L. unfold range.
  replace n with (i + S (n - S i))%nat at 1 by lia.
  now rewrite seq_app.
Qed.

(** At an index all four lists reach, a step does not fail with
    [IndexError]. *)
Lemma step_in_range {python : Interpreter} names body_parts sets reps j :
  (j < List.length names)%nat ->
  (j < List.length body_parts)%nat ->
  (j < List.length sets)%nat ->
  (j < List.length reps)%nat ->
  step names body_parts sets reps j <> Failed IndexError.
Proof.
  intros LN LB LS LR. unfold step.
  apply nth_error_Some in LN, LB, LS, LR.
  destruct (nth_error names j) as [name|]; [|contradiction].
  destruct (PyStr.truthy (PyStr.strip name)); [|discriminate].
  destruct (nth_error body_parts j) as [body_part|]; [|contradiction].
  destruct (nth_error sets j) as [s|]; [|contradiction].
  destruct (PyStr.int int_max_str_digits s); [|discriminate].
  destruct (nth_error reps j) as [r|]; [|contradiction].
  destruct (PyStr.int int_max_str_digits r); discriminate.
Qed.

(** C6. For an add-workout submission of an authenticated user in which
    some exercise row (an index with a value in each of the four lists)
    has a non-blank name and sets or reps that are not a well-formed
    integer, the coercion raises [ValueError], which nothing catches: the
    request ends in the server error.  The workout, committed before the
    rows were looked at, is stored; no exercise is, so none of the
    exercises of the new workout is stored. *)
Theorem add_workout_malformed_number_aborts {engine : Engine} {python : Interpreter} :
  forall (w : World) (u : User.t) (request : Request) (i : nat)
         (name body_part s r : string),
    who w = Some u ->
    WorkoutForm.validate_on_submit (WorkoutForm.bind_request request) = true ->
    nth_error (getlist "exercise_name" request) i = Some name ->
    nth_error (getlist "exercise_body_part" request) i = Some body_part ->
    nth_error (getlist "exercise_sets" request) i = Some s ->
    nth_error (getlist "exercise_reps" request) i = Some r ->
    blank name = false ->
    (~ well_formed_integer s \/ ~ well_formed_integer r) ->
    let x := new_workout w u request in
    let after := snd (serve (add_workout request) w) in
    fst (serve (add_workout request) w) = internal_server_error ValueError
    /\ workouts (committed after) = (workouts (committed w) ++ [x])%list
    /\ exercises (committed after) = exercises (committed w)
    /\ users (committed after) = users (committed w).
Proof.
  intros w u request i name body_part s r U V N B Hs Hr Bl Bad x after.
  subst after.
  pose proof (serve_add_workout request w u U V) as E. cbv zeta in E.
  fold x in E.
  set (names := getlist "exercise_name" request) in *.
  set (body_parts := getlist "exercise_body_part" request) in *.
  set (sets := getlist "exercise_sets" request) in *.
  set (reps := getlist "exercise_reps" request) in *.
  assert (LN : (i < List.length names)%nat) by (apply nth_error_Some; congruence).
  assert (LB : (i < List.length body_parts)%nat) by (apply nth_error_Some; congruence).
  assert (LS : (i < List.length sets)%nat) by (apply nth_error_Some; congruence).
  assert (LR : (i < List.length reps)%nat) by (apply nth_error_Some; congruence).
  assert (F : step names body_parts sets reps i = Failed ValueError).
  { unfold step, well_formed_integer in *.
    rewrite N, truthy_strip, Bl, B, Hs, Hr. simpl.
    destruct (PyStr.int int_max_str_digits s); [|reflexivity].
    destruct (PyStr.int int_max_str_digits r); [|reflexivity].
    destruct Bad as [Bad | Bad]; exfalso; apply Bad; discriminate. }
  rewrite (range_split _ _ LN), map_app in E. cbn [map] in E. rewrite F in E.
  destruct (collect_first_failure
              (map (step names body_parts sets reps) (seq 0 i)) ValueError
              (map (step names body_parts sets reps)
                   (seq (S i) (List.length names - S i))))
    as [e [C I]].
  assert (e = ValueError) as ->.
  { apply in_app_or in I. destruct I as [I | [[= <-] | []]]; [|reflexivity].
    apply in_map_iff in I. destruct I as [j [Fj J]]. apply in_seq in J.
    destruct (step_failure_kind _ _ _ _ _ _ Fj) as [-> | ->]; [|reflexivity].
    exfalso. revert Fj. apply step_in_range; lia. }
  rewrite C in E. rewrite E. simpl. rewrite app_nil_r. repeat split.
Qed.

Lemma add_workout_malformed_number_aborts_witness :
  who as_alice = Some alice
  /\ nth_error (getlist "exercise_sets" three_rows_one_malformed) 0 = Some "five"
  /\ ~ well_formed_integer (python := cpython) "five"
  /\ fst (serve (add_workout (python := cpython) (engine := sqlite)
          three_rows_one_malformed) as_alice)
     = internal_server_error ValueError.
Proof.
  split; [reflexivity|]. split; [reflexivity|].
  assert (N : ~ well_formed_integer (python := cpython) "five")
    by (intros N; now apply N).
  split; [exact N|].
  apply (@add_workout_malformed_number_aborts sqlite cpython as_alice alice
           three_rows_one_malformed 0%nat "squat" "legs" "five" "5"
           eq_refl eq_refl eq_refl eq_refl eq_refl eq_refl eq_refl).
  left. exact N.
Defined.

(** C10, as amended.  The loop of [add_workout] runs over the indices of
    the list of names alone and indexes the other three lists without a
    guard.  For an add-workout submission of an authenticated user in which
    some index has a non-blank name and is out of the range of the list of
    body parts, of sets or of reps, an uncaught error ends the request in
    the server error, after the workout was committed and with no exercise
    stored.  The error is the out-of-range error, [IndexError], whenever
    every sets and reps value that stands at an index with a non-blank name
    is a well-formed integer; otherwise it is [IndexError] or the
    [ValueError] of a coercion that ran first. *)
Theorem add_workout_misaligned_lists_abort {engine : Engine} {python : Interpreter} :
  forall (w : World) (u : User.t) (request : Request) (i : nat) (name : string),
    who w = Some u ->
    WorkoutForm.validate_on_submit (WorkoutForm.bind_request request) = true ->
    let names := getlist "exercise_name" request in
    let body_parts := getlist "exercise_body_part" request in
    let sets := getlist "exercise_sets" request in
    let reps := getlist "exercise_reps" request in
    nth_error names i = Some name ->
    blank name = false ->
    (List.length body_parts <= i \/ List.length sets <= i \/ List.length reps <= i)%nat ->
    exists e : Exn,
      (e = IndexError \/ e = ValueError)
      /\ serve (add_workout request) w
         = (internal_server_error e, with_workout w (new_workout w u request) [] [])
      /\ ((forall j n s,
              nth_error names j = Some n -> blank n = false ->
              nth_error sets j = Some s \/ nth_error reps j = Some s ->
              well_formed_integer s) ->
          e = IndexError).
Proof.
  intros w u request i name U V names body_parts sets reps N B Short.
  pose proof (serve_add_workout request w u U V) as E. cbv zeta in E.
  fold names body_parts sets reps in E.
  destruct (step_out_of_range names body_parts sets reps i name N B Short)
    as [e0 F0].
  destruct (collect_some_failure
              (map (step names body_parts sets reps) (range (List.length names))) e0)
    as [e F].
  { rewrite <- F0. apply in_map. unfold range. apply in_seq.
    assert (i < List.length names)%nat by (apply nth_error_Some; congruence).
    lia. }
  rewrite F in E. exists e.
  pose proof (collect_failure _ _ F) as I. apply in_map_iff in I.
  destruct I as [j [Fj _]].
  split; [now apply step_failure_kind in Fj|]. split; [exact E|].
  intros W. destruct (step_failure_kind _ _ _ _ _ _ Fj) as [-> | ->];
    [reflexivity|].
  exfalso. apply step_value_error in Fj.
  destruct Fj as [n [s [Nj [Bj [Sj Bad]]]]].
  apply Bad. now apply (W j n s).
Qed.

Lemma add_workout_misaligned_lists_abort_witness :
  who as_alice = Some alice
  /\ blank "press" = false
  /\ (List.length (getlist "exercise_sets" (one_sets_value "5")) <= 1)%nat
  /\ serve (add_workout (python := cpython) (engine := sqlite)
          (one_sets_value "5")) as_alice
     = (internal_server_error IndexError,
        with_workout as_alice (new_workout as_alice alice (one_sets_value "5")) [] []).
Proof.
  split; [reflexivity|]. split; [reflexivity|]. split; [simpl; lia|].
  destruct (@add_workout_misaligned_lists_abort sqlite cpython as_alice alice
              (one_sets_value "5") 1%nat "press" eq_refl eq_refl eq_refl eq_refl)
    as [e [_ [E I]]].
  - right. left. simpl. lia.
  - rewrite <- I; [exact E|].
    intros [|[|j]] n s; simpl.
    + intros _ _ [[= <-] | [= <-]]; discriminate.
    + intros _ _ [[=] | [= <-]]; discriminate.
    + destruct j; discriminate.
Defined.

(** C10 as stated fails on [one_sets_value "five"]: index 1 has the
    non-blank name "press" and is out of the range of the list of sets, and
    the error that ends the request is not the out-of-range error, the
    coercion of "five" at index 0 raising [ValueError] first. *)
Lemma misaligned_lists_abort_with_value_error :
  who as_alice = Some alice
  /\ WorkoutForm.validate_on_submit
       (WorkoutForm.bind_request (one_sets_value "five")) = true
  /\ nth_error (getlist "exercise_name" (one_sets_value "five")) 1 = Some "press"
  /\ blank "press" = false
  /\ (List.length (getlist "exercise_sets" (one_sets_value "five")) < 1 + 1)%nat
  /\ serve (add_workout (python := cpython) (engine := sqlite)
          (one_sets_value "five")) as_alice
     = (internal_server_error ValueError,
        with_workout as_alice (new_workout as_alice alice (one_sets_value "five"))
          [] [])
  /\ fst (serve (add_workout (python := cpython) (engine := sqlite)
          (one_sets_value "five")) as_alice)
     <> internal_server_error IndexError.
Proof.
  repeat split; try (simpl; lia). discriminate.
Qed.

(** ** C7: the password set at registration *)

Lemma find_app_none {A} (p : A -> bool) l l' :
  find p l = None -> find p (l ++ l') = find p l'.
Proof.
  induction l as [|x l IH]; simpl; [reflexivity|].
  destruct (p x); [discriminate | exact IH].
Qed.




(** ** The invariants of the data model are kept *)

Create HintDb read_only.

Lemma read_only_ret {A} (a : A) : read_only (ret a).
Proof. now intros w. Qed.

Lemma read_only_raise {A} e : read_only (@raise A e).
Proof. now intros w. Qed.

Lemma read_only_bind {A B} (m : M A) (k : A -> M B) :
  read_only m -> (forall a, read_only (k a)) -> read_only (bind m k).
Proof.
  intros Rm Rk w. unfold bind. specialize (Rm w).
  destruct (m w) as [[a | e] w']; simpl in Rm.
  - destruct (Rk a w') as [C P]. destruct Rm as [C' P']. split; congruence.
  - exact Rm.
Qed.

Lemma read_only_query {A} (table : Database -> list A) : read_only (query table).
Proof. now intros w. Qed.

Lemma read_only_flash t c : read_only (flash t c).
Proof. now intros w. Qed.

Lemma read_only_login_user u : read_only (login_user u).
Proof. now intros w. Qed.

Lemma read_only_logout_user : read_only logout_user.
Proof. now intros w. Qed.

Lemma read_only_current_user : read_only current_user.
Proof. intros w. now rewrite current_user_run. Qed.

#[local] Hint Resolve read_only_ret read_only_raise read_only_query
  read_only_flash read_only_login_user read_only_logout_user
  read_only_current_user : read_only.

Ltac read_only :=
  repeat first
    [ progress auto with read_only
    | apply read_only_bind; [|intros ?]
    | match goal with
      | |- read_only (match ?x with _ => _ end) => destruct x
      | |- read_only (if ?b then _ else _) => destruct b
      end ].

Lemma read_only_current_user_id : read_only current_user_id.
Proof. unfold current_user_id. read_only. Qed.

Lemma read_only_login_required view :
  read_only view -> read_only (login_required view).
Proof.
  intros R. unfold login_required, LOGIN_DISABLED, unauthorized. cbv iota.
  read_only.
Qed.

Lemma read_only_attach_exercises xs : read_only (attach_exercises xs).
Proof. intros w. now rewrite attach_exercises_run. Qed.

#[local] Hint Resolve read_only_current_user_id read_only_attach_exercises
  : read_only.

Lemma read_only_index : read_only index.
Proof. unfold index. read_only. Qed.

Lemma read_only_login {hasher : Werkzeug} {validator : EmailValidator} request :
  read_only (login request).
Proof. unfold login. cbv zeta. read_only. Qed.

Lemma read_only_logout : read_only logout.
Proof. apply read_only_login_required. read_only. Qed.

Lemma read_only_dashboard : read_only dashboard.
Proof. apply read_only_login_required. read_only. Qed.

Lemma read_only_workout_history : read_only workout_history.
Proof. apply read_only_login_required. read_only. Qed.

Lemma read_only_view_workout {engine : Engine}
  workout_id : read_only (view_workout workout_id).
Proof. apply read_only_login_required. unfold get_or_404. read_only. Qed.

(** Serving a read-only view leaves the tables as they were. *)
Lemma serve_read_only view w :
  read_only view -> committed (snd (serve view w)) = committed w.
Proof.
  intros R. unfold serve. destruct (R (rollback w)) as [C _].
  destruct (view (rollback w)) as [[r | e] w']; simpl in *.
  - exact C.
  - destruct e; exact C.
Qed.

Lemma NoDup_snoc {A} (l : list A) a : NoDup l -> ~ In a l -> NoDup (l ++ [a]).
Proof.
  intros D N. apply NoDup_app; [exact D | repeat constructor; easy|].
  intros b I [<- | []]. contradiction.
Qed.

Lemma who_stored w u : who w = Some u -> In u (users (committed w)).
Proof.
  unfold who. destruct (session_user_id w) as [k|]; [|discriminate].
  intros G. now apply get_some in G.
Qed.

Lemma find_none_not_in {A} (key : A -> string) k rows :
  find (fun r => String.eqb (key r) k) rows = None -> ~ In k (map key rows).
Proof.
  intros F I. apply in_map_iff in I. destruct I as [r [E I]].
  apply (find_none _ _ F) in I. simpl in I.
  rewrite E, String.eqb_refl in I. discriminate.
Qed.

(** The keys [number] hands out: from [k] on, without repetition. *)
Lemma number_keys wid xs :
  forall k,
    NoDup (map Exercise.id (number wid k xs))
    /\ (forall j, In j (map Exercise.id (number wid k xs)) -> k <= j)
    /\ (forall e, In e (number wid k xs) -> Exercise.workout_id e = wid).
Proof.
  induction xs as [|x xs IH]; intros k; simpl.
  - repeat split; [constructor | easy | easy].
  - destruct (IH (k + 1)) as [D [L W]]. repeat split.
    + constructor; [|exact D]. intros I. apply L in I. lia.
    + intros j [<- | I]; [lia | apply L in I; lia].
    + intros e [<- | I]; [reflexivity | now apply W].
Qed.

(** Registration keeps the invariants: the new user has a fresh key, and
    the two checks have made sure of the address and the name. *)
Lemma register_consistent {engine : Engine}
  {hasher : Werkzeug} {validator : EmailValidator} request w :
  consistent (committed w) ->
  consistent (committed (snd (serve (register request) w))).
Proof.
  intros C.
  destruct (RegisterForm.validate_on_submit (RegisterForm.bind_request request))
    eqn:V.
  - rewrite (serve_register request w V).
    destruct (user_with_email _ w) eqn:E; [exact C|].
    destruct (user_with_username _ w) eqn:N; [exact C|].
    destruct C as [UK WK EK UE UN WO EW]. simpl.
    constructor; simpl; try assumption.
    + rewrite map_app. apply NoDup_snoc; [exact UK | apply next_id_fresh].
    + rewrite map_app. apply NoDup_snoc; [exact UE|].
      now apply find_none_not_in.
    + rewrite map_app. apply NoDup_snoc; [exact UN|].
      now apply find_none_not_in.
    + intros x I. rewrite map_app. apply in_or_app. left. now apply WO.
  - unfold serve, register. rewrite V. exact C.
Qed.

(** Adding a workout keeps the invariants, whether the request ends well
    or in a server error. *)
Lemma add_workout_consistent {engine : Engine} {python : Interpreter} request w :
  consistent (committed w) ->
  consistent (committed (snd (serve (add_workout request) w))).
Proof.
  intros C. destruct (who w) as [u|] eqn:U.
  2:{ unfold add_workout. now rewrite serve_anonymous. }
  destruct (WorkoutForm.validate_on_submit (WorkoutForm.bind_request request))
    eqn:V.
  2:{ unfold serve, add_workout.
      rewrite login_required_authenticated with (u := u) by exact U.
      rewrite V. exact C. }
  pose proof (serve_add_workout request w u U V) as E. cbv zeta in E.
  rewrite E. clear E.
  set (x := new_workout w u request).
  set (run := collect _).
  destruct C as [UK WK EK UE UN WO EW].
  assert (WK' : NoDup (map Workout.id (workouts (committed w) ++ [x]))).
  { rewrite map_app. apply NoDup_snoc; [exact WK | apply next_id_fresh]. }
  assert (WO' : forall y, In y (workouts (committed w) ++ [x]) ->
                  In (Workout.user_id y) (map User.id (users (committed w)))).
  { intros y I. apply in_app_or in I. destruct I as [I | [<- | []]].
    - now apply WO.
    - simpl. apply in_map. now apply who_stored. }
  assert (EW' : forall e, In e (exercises (committed w)) ->
                  In (Exercise.workout_id e)
                     (map Workout.id (workouts (committed w) ++ [x]))).
  { intros e I. rewrite map_app. apply in_or_app. left. now apply EW. }
  assert (Empty : consistent (committed (with_workout w x [] []))).
  { constructor; simpl; try assumption.
    - now rewrite app_nil_r.
    - intros e' I. rewrite app_nil_r in I. now apply EW'. }
  destruct (snd run) as [e|]; [exact Empty|].
  destruct (forallb entry_fits (fst run)); [|exact Empty].
  - destruct (number_keys (Workout.id x) (fst run)
                (next_id (map Exercise.id (exercises (committed w)))))
      as [D [L W]].
    constructor; simpl; try assumption.
    + rewrite map_app. apply NoDup_app; [exact EK | exact D|].
      intros j I J. apply L in J. apply fold_max_bound in I.
      unfold next_id in J. lia.
    + intros e' I. apply in_app_or in I. destruct I as [I | I].
      * now apply EW'.
      * rewrite (W e' I), map_app. apply in_or_app. right. now left.
Qed.

(** Every call keeps the invariants of the data model. *)
Lemma serve_consistent {engine : Engine}
  {hasher : Werkzeug} {validator : EmailValidator}
  {python : Interpreter} (c : Call) (w : World) :
  consistent (committed w) ->
  consistent (committed (snd (serve (view_of c) w))).
Proof.
  intros C. destruct c; cbn [view_of].
  - now rewrite (serve_read_only index w read_only_index).
  - now apply register_consistent.
  - now rewrite (serve_read_only _ w (read_only_login request)).
  - now rewrite (serve_read_only _ w read_only_logout).
  - now rewrite (serve_read_only _ w read_only_dashboard).
  - now apply add_workout_consistent.
  - now rewrite (serve_read_only _ w read_only_workout_history).
  - now rewrite (serve_read_only _ w (read_only_view_workout workout_id)).
Qed.

(** X4. The invariants of the data model hold of every database the
    program can reach: if keys, e-mail addresses and user names are unique
    and every workout and exercise references a stored row, they still are,
    and do, after any sequence of calls of the views, whatever the requests
    carry and however the calls end. *)
Theorem reachable_consistent {engine : Engine}
  {hasher : Werkzeug} {validator : EmailValidator}
  {python : Interpreter} (calls : list Call) :
  forall w,
    consistent (committed w) ->
    consistent (committed (serve_all calls w)).
Proof.
  induction calls as [|c calls IH]; intros w C; cbn [serve_all]; [exact C|].
  apply IH. now apply serve_consistent.
Qed.

Lemma empty_consistent : consistent empty_db.
Proof. constructor; simpl; try constructor; easy. Qed.

Lemma gym_consistent : consistent gym.
Proof.
  constructor; simpl;
    try (repeat constructor; simpl; intuition discriminate).
  - intros x [<- | []]. simpl. now left.
  - intros e [<- | []]. simpl. now left.
Qed.

Lemma reachable_consistent_witness :
  consistent (committed as_nobody)
  /\ consistent
       (committed
          (serve_all (engine := sqlite)
                  (hasher := plain_hasher) (validator := at_sign_validator)
             (python := cpython)
             [call_register carol_registers; call_login carol_logs_in;
              call_add_workout three_rows; call_logout]
             as_nobody)).
Proof.
  split; [exact gym_consistent|].
  apply (@reachable_consistent sqlite plain_hasher at_sign_validator cpython).
  exact gym_consistent.
Defined.

(** * Further properties of the views *)

(** ** What a view can change *)

Create HintDb keeps_session.

Lemma keeps_session_ret {A} (a : A) : keeps_session (ret a).
Proof. now intros w. Qed.

Lemma keeps_session_raise {A} e : keeps_session (@raise A e).
Proof. now intros w. Qed.

Lemma keeps_session_bind {A B} (m : M A) (k : A -> M B) :
  keeps_session m -> (forall a, keeps_session (k a)) -> keeps_session (bind m k).
Proof.
  intros Km Kk w. unfold bind. specialize (Km w).
  destruct (m w) as [[a | e] w']; simpl in Km.
  - rewrite (Kk a w'). exact Km.
  - exact Km.
Qed.

Lemma keeps_session_query {A} (table : Database -> list A) :
  keeps_session (query table).
Proof. now intros w. Qed.

Lemma keeps_session_flash t c : keeps_session (flash t c).
Proof. now intros w. Qed.

Lemma keeps_session_current_user : keeps_session current_user.
Proof. intros w. now rewrite current_user_run. Qed.

Lemma keeps_session_add_user obj : keeps_session (session_add_user obj).
Proof. now intros w. Qed.

Lemma keeps_session_add_workout obj : keeps_session (session_add_workout obj).
Proof. now intros w. Qed.

Lemma keeps_session_add_exercise obj : keeps_session (session_add_exercise obj).
Proof. now intros w. Qed.

Lemma keeps_session_commit {engine : Engine} : keeps_session session_commit.
Proof.
  intros w. unfold session_commit.
  now destruct (forallb storable (exercises (pending w))).
Qed.

#[local] Hint Resolve keeps_session_ret keeps_session_raise keeps_session_query
  keeps_session_flash keeps_session_current_user keeps_session_add_user
  keeps_session_add_workout keeps_session_add_exercise keeps_session_commit
  : keeps_session.

Ltac keeps_session :=
  repeat first
    [ progress auto with keeps_session
    | apply keeps_session_bind; [|intros ?]
    | match goal with
      | |- keeps_session (match ?x with _ => _ end) => destruct x
      | |- keeps_session (if ?b then _ else _) => destruct b
      end ].

Lemma keeps_session_for_each {A} (xs : list A) body :
  (forall x, keeps_session (body x)) -> keeps_session (for_each xs body).
Proof.
  intros K. induction xs as [|x xs IH]; simpl; keeps_session.
Qed.

Lemma keeps_session_add_exercise_step {python : Interpreter}
  workout names body_parts sets reps i :
  keeps_session (add_exercise workout names body_parts sets reps i).
Proof. unfold add_exercise, getitem, int. keeps_session. Qed.

Lemma keeps_session_attach_exercises xs : keeps_session (attach_exercises xs).
Proof. intros w. now rewrite attach_exercises_run. Qed.

Lemma keeps_session_login_required view :
  keeps_session view -> keeps_session (login_required view).
Proof.
  intros K. unfold login_required, LOGIN_DISABLED, unauthorized. cbv iota.
  keeps_session.
Qed.

Lemma keeps_session_index : keeps_session index.
Proof. unfold index. keeps_session. Qed.

Lemma keeps_session_register {engine : Engine}
  {hasher : Werkzeug} {validator : EmailValidator}
  request : keeps_session (register request).
Proof. unfold register. cbv zeta. keeps_session. Qed.

Lemma keeps_session_dashboard : keeps_session dashboard.
Proof.
  apply keeps_session_login_required. unfold current_user_id. keeps_session.
Qed.

Lemma keeps_session_add_workout_view {engine : Engine} {python : Interpreter} request :
  keeps_session (add_workout request).
Proof.
  apply keeps_session_login_required. cbv zeta. unfold current_user_id.
  keeps_session.
  apply keeps_session_for_each. intros i.
  apply keeps_session_add_exercise_step.
Qed.

Lemma keeps_session_workout_history : keeps_session workout_history.
Proof.
  apply keeps_session_login_required. unfold current_user_id.
  pose proof keeps_session_attach_exercises. keeps_session.
Qed.

Lemma keeps_session_view_workout {engine : Engine} workout_id :
  keeps_session (view_workout workout_id).
Proof.
  apply keeps_session_login_required. unfold get_or_404. keeps_session.
Qed.

Lemma serve_keeps_session view w :
  keeps_session view -> session_user_id (snd (serve view w)) = session_user_id w.
Proof.
  intros K. unfold serve. specialize (K (rollback w)).
  destruct (view (rollback w)) as [[r | e] w']; simpl in *.
  - exact K.
  - destruct e; exact K.
Qed.

(** X1. Only [register] and [add_workout] write to the tables, and only
    [login] and [logout] change the session identity: whatever the request
    and the world, serving any other view leaves the tables, respectively
    the identity, exactly as they were. *)
Theorem views_write_only_what_is_theirs {engine : Engine} {hasher : Werkzeug}
  {validator : EmailValidator} {python : Interpreter} :
  forall (c : Call) (w : World),
    let after := snd (serve (view_of c) w) in
    match c with
    | call_register _ | call_add_workout _ => True
    | _ => committed after = committed w
    end
    /\ match c with
       | call_login _ | call_logout => True
       | _ => session_user_id after = session_user_id w
       end.
Proof.
  intros c w after. subst after. split.
  - destruct c; cbn [view_of]; try exact I.
    + apply serve_read_only, read_only_index.
    + apply serve_read_only, read_only_login.
    + apply serve_read_only, read_only_logout.
    + apply serve_read_only, read_only_dashboard.
    + apply serve_read_only, read_only_workout_history.
    + apply serve_read_only, read_only_view_workout.
  - destruct c; cbn [view_of]; try exact I.
    + apply serve_keeps_session, keeps_session_index.
    + apply serve_keeps_session, keeps_session_register.
    + apply serve_keeps_session, keeps_session_dashboard.
    + apply serve_keeps_session, keeps_session_add_workout_view.
    + apply serve_keeps_session, keeps_session_workout_history.
    + apply serve_keeps_session, keeps_session_view_workout.
Qed.

(** The tables after a registration: as before, or with the one new user. *)
Lemma register_tables {engine : Engine}
  {hasher : Werkzeug} {validator : EmailValidator} request w :
  let form := RegisterForm.bind_request request in
  let after := committed (snd (serve (register request) w)) in
  after = committed w
  \/ (RegisterForm.validate_on_submit form = true
      /\ user_with_email (data (RegisterForm.email form)) w = None
      /\ user_with_username (data (RegisterForm.username form)) w = None
      /\ after
         = mkDatabase
             (users (committed w)
              ++ [User.mk (next_id (map User.id (users (committed w))))
                    (data (RegisterForm.username form))
                    (data (RegisterForm.email form))
                    (generate_password_hash (salt request)
                       (data (RegisterForm.password form)))])
             (workouts (committed w)) (exercises (committed w))).
Proof.
  intros form after. subst after.
  destruct (RegisterForm.validate_on_submit form) eqn:V.
  - rewrite (serve_register request w V). fold form.
    destruct (user_with_email _ w) eqn:E; [now left|].
    destruct (user_with_username _ w) eqn:N; [now left|].
    right. now repeat split.
  - left. unfold serve, register. fold form. now rewrite V.
Qed.

(** The tables after [add_workout]: as before, or with the one new workout
    of the requester and exercises that all reference it. *)
Lemma add_workout_tables {engine : Engine} {python : Interpreter} request w :
  let after := committed (snd (serve (add_workout request) w)) in
  after = committed w
  \/ exists u es,
       who w = Some u
       /\ WorkoutForm.validate_on_submit (WorkoutForm.bind_request request) = true
       /\ after
          = mkDatabase (users (committed w))
              (workouts (committed w) ++ [new_workout w u request])
              (exercises (committed w) ++ es)
       /\ forall e, In e es
                    -> Exercise.workout_id e = Workout.id (new_workout w u request).
Proof.
  intros after. subst after. destruct (who w) as [u|] eqn:U.
  2:{ left. unfold add_workout. now rewrite serve_anonymous. }
  destruct (WorkoutForm.validate_on_submit (WorkoutForm.bind_request request))
    eqn:V.
  2:{ left. unfold serve, add_workout.
      rewrite login_required_authenticated with (u := u) by exact U.
      now rewrite V. }
  right. exists u.
  pose proof (serve_add_workout request w u U V) as E. cbv zeta in E.
  rewrite E. clear E.
  set (x := new_workout w u request).
  set (run := collect _).
  assert (Empty : exists es,
            Some u = Some u /\ true = true
            /\ committed (with_workout w x [] [])
               = mkDatabase (users (committed w)) (workouts (committed w) ++ [x])
                   (exercises (committed w) ++ es)
            /\ forall e, In e es -> Exercise.workout_id e = Workout.id x).
  { exists []. repeat split; try (intros e' []). }
  destruct (snd run) as [e|]; [exact Empty|].
  destruct (forallb entry_fits (fst run)); [|exact Empty].
  - eexists. repeat split.
    intros e' I.
    now apply (number_keys (Workout.id x) (fst run)
                 (next_id (map Exercise.id (exercises (committed w))))).
Qed.

(** X2. No view updates or deletes a row: after any call each table is the
    table of before with rows appended.  A call appends at most one user
    and at most one workout, and it appends exercises only together with a
    workout, which they all reference. *)
Theorem tables_only_grow {engine : Engine}
  {hasher : Werkzeug} {validator : EmailValidator}
  {python : Interpreter} :
  forall (c : Call) (w : World),
    let after := committed (snd (serve (view_of c) w)) in
    exists us ws es,
      users after = (users (committed w) ++ us)%list
      /\ workouts after = (workouts (committed w) ++ ws)%list
      /\ exercises after = (exercises (committed w) ++ es)%list
      /\ (List.length us <= 1)%nat
      /\ (List.length ws <= 1)%nat
      /\ (forall e, In e es
                    -> exists x, ws = [x] /\ Exercise.workout_id e = Workout.id x).
Proof.
  intros c w after.
  assert (Same : after = committed w ->
          exists us ws es,
            users after = (users (committed w) ++ us)%list
            /\ workouts after = (workouts (committed w) ++ ws)%list
            /\ exercises after = (exercises (committed w) ++ es)%list
            /\ (List.length us <= 1)%nat
            /\ (List.length ws <= 1)%nat
            /\ (forall e, In e es
                          -> exists x, ws = [x]
                                       /\ Exercise.workout_id e = Workout.id x)).
  { intros ->. exists [], [], []. rewrite !app_nil_r. simpl.
    repeat split; try lia; try (intros e []). }
  subst after. destruct c; cbn [view_of] in *.
  - apply Same, serve_read_only, read_only_index.
  - destruct (register_tables request w) as [E | [_ [_ [_ E]]]];
      [now apply Same|].
    rewrite E. eexists [_], [], []. rewrite !app_nil_r. simpl.
    repeat split; try lia; try (intros e []).
  - apply Same, serve_read_only, read_only_login.
  - apply Same, serve_read_only, read_only_logout.
  - apply Same, serve_read_only, read_only_dashboard.
  - destruct (add_workout_tables request w) as [E | [u [es [_ [_ [E W]]]]]];
      [now apply Same|].
    rewrite E. exists [], [new_workout w u request], es.
    rewrite app_nil_r. simpl. repeat split; try lia.
    intros e I. eexists. split; [reflexivity | now apply W].
  - apply Same, serve_read_only, read_only_workout_history.
  - apply Same, serve_read_only, read_only_view_workout.
Qed.

(** X3. Whatever an add-workout request carries, the workout it stores, if
    it stores one, belongs to the user who makes the request, and the
    workouts of every other user are those of before. *)
Theorem add_workout_touches_only_the_requester {engine : Engine}
  {python : Interpreter} :
  forall (w : World) (u v : User.t) (request : Request),
    who w = Some u ->
    User.id v <> User.id u ->
    let after := snd (serve (add_workout request) w) in
    workouts_of v after = workouts_of v w
    /\ (forall x, In x (workouts (committed after)) ->
                  In x (workouts (committed w)) \/ Workout.user_id x = User.id u).
Proof.
  intros w u v request U D after. subst after.
  destruct (add_workout_tables request w) as [E | [u' [es [U' [_ [E _]]]]]].
  - unfold workouts_of. rewrite E. split; [reflexivity | now left].
  - assert (u' = u) as -> by congruence.
    unfold workouts_of. rewrite E. simpl. split.
    + rewrite filter_app. simpl.
      destruct (Z.eqb_spec (User.id u) (User.id v)) as [Q | Q];
        [now contradiction D | now rewrite app_nil_r].
    + intros x I. apply in_app_or in I.
      destruct I as [I | [<- | []]]; [now left | now right].
Qed.

Lemma add_workout_touches_only_the_requester_witness :
  who as_alice = Some alice
  /\ User.id bob <> User.id alice
  /\ workouts_of bob (snd (serve (add_workout (python := cpython) (engine := sqlite)
          three_rows) as_alice))
     = workouts_of bob as_alice.
Proof.
  split; [reflexivity|]. split; [discriminate|].
  apply (@add_workout_touches_only_the_requester sqlite cpython as_alice alice bob
           three_rows eq_refl).
  discriminate.
Defined.

(** ** The forms *)

Lemma blank_empty s : blank s = false -> PyStr.truthy s = true.
Proof. now destruct s. Qed.

(** [DataRequired] accepts the values that are there and not blank. *)
Lemma DataRequired_spec d :
  DataRequired d = true <-> exists s, d = Some s /\ blank s = false.
Proof.
  unfold DataRequired. destruct d as [s|].
  - rewrite truthy_strip. split.
    + intros E. apply andb_true_iff in E. destruct E as [_ E].
      exists s. split; [reflexivity | now apply negb_true_iff].
    + intros [s' [[= <-] B]]. now rewrite (blank_empty s B), B.
  - split; [discriminate | now intros [s [E _]]].
Qed.

Lemma EqualTo_some d s : EqualTo (Some s) d = true <-> d = Some s.
Proof.
  unfold EqualTo. destruct d as [s'|].
  - rewrite String.eqb_eq. split; congruence.
  - split; discriminate.
Qed.

Lemma field_data_post key request :
  method request = POST -> field_data key request = hd_error (getlist key request).
Proof. intros E. unfold field_data, is_submitted. now rewrite E. Qed.

Lemma is_submitted_post request :
  is_submitted request = true <-> method request = POST.
Proof. unfold is_submitted. destruct (method request); split; congruence. Qed.

(** X5. What the three forms accept.  A request passes [validate_on_submit]
    exactly when it is a [POST] whose CSRF token is accepted and in which
    the first value of every required field is there and not blank
    (neither empty nor white space only); the registration form asks in
    addition that the e-mail validator accepts the address and that the
    first value of [password2] is the password, the login form that the
    validator accepts the address.  [notes] is not required. *)
Theorem forms_accept {validator : EmailValidator} :
  forall request : Request,
    let value key := hd_error (getlist key request) in
    (RegisterForm.validate_on_submit (RegisterForm.bind_request request) = true
     <-> method request = POST /\ csrf_ok request = true
         /\ exists username email password,
              value "username" = Some username /\ blank username = false
              /\ value "email" = Some email /\ blank email = false
              /\ Email email = true
              /\ value "password" = Some password /\ blank password = false
              /\ value "password2" = Some password)
    /\ (LoginForm.validate_on_submit (LoginForm.bind_request request) = true
        <-> method request = POST /\ csrf_ok request = true
            /\ exists email password,
                 value "email" = Some email /\ blank email = false
                 /\ Email email = true
                 /\ value "password" = Some password /\ blank password = false)
    /\ (WorkoutForm.validate_on_submit (WorkoutForm.bind_request request) = true
        <-> method request = POST /\ csrf_ok request = true
            /\ exists date start_time duration,
                 value "date" = Some date /\ blank date = false
                 /\ value "start_time" = Some start_time
                 /\ blank start_time = false
                 /\ value "duration" = Some duration /\ blank duration = false).
Proof.
  intros request value. subst value.
  unfold RegisterForm.validate_on_submit, RegisterForm.validate,
    LoginForm.validate_on_submit, LoginForm.validate,
    WorkoutForm.validate_on_submit, WorkoutForm.validate.
  cbn [RegisterForm.bind_request RegisterForm.submitted RegisterForm.csrf
       RegisterForm.username RegisterForm.email RegisterForm.password
       RegisterForm.password2
       LoginForm.bind_request LoginForm.submitted LoginForm.csrf
       LoginForm.email LoginForm.password
       WorkoutForm.bind_request WorkoutForm.submitted WorkoutForm.csrf
       WorkoutForm.date WorkoutForm.start_time WorkoutForm.duration].
  rewrite !andb_true_iff, !DataRequired_spec, is_submitted_post.
  split; [|split]; split.
  - intros [P [[[[C [u [U BU]]] [[e [E BE]] V]] [[p [Pw BP]] Q]] _]].
    repeat match goal with
           | H : context [field_data ?k request] |- _ =>
               rewrite (field_data_post k _ P) in H
           end.
    rewrite Pw in Q. apply EqualTo_some in Q.
    rewrite E in V. split; [exact P|]. split; [exact C|].
    exists u, e, p. now repeat split.
  - intros [P [C [u [e [p [U [BU [E [BE [V [Pw [BP Q]]]]]]]]]]]].
    rewrite !(field_data_post _ _ P), U, E, Pw, Q. simpl.
    rewrite String.eqb_refl. repeat split; eauto.
  - intros [P [[C [[e [E BE]] V]] [p [Pw BP]]]].
    repeat match goal with
           | H : context [field_data ?k request] |- _ =>
               rewrite (field_data_post k _ P) in H
           end.
    rewrite E in V. split; [exact P|]. split; [exact C|].
    exists e, p. now repeat split.
  - intros [P [C [e [p [E [BE [V [Pw BP]]]]]]]].
    rewrite !(field_data_post _ _ P), E, Pw. simpl. repeat split; eauto.
  - intros [P [[[C [d [D BD]]] [t [T BT]]] [l [L BL]]]].
    repeat match goal with
           | H : context [field_data ?k request] |- _ =>
               rewrite (field_data_post k _ P) in H
           end.
    split; [exact P|]. split; [exact C|].
    exists d, t, l. now repeat split.
  - intros [P [C [d [t [l [D [BD [T [BT [L BL]]]]]]]]]].
    rewrite !(field_data_post _ _ P), D, T, L. repeat split; eauto.
Qed.

(** X6. A request a form does not validate (a [GET], a [POST] whose CSRF
    token is not accepted, or one in which a required field is missing or
    blank) commits nothing: [register], [login] and, for an authenticated
    user, [add_workout] answer with their page around the bound form and
    leave the tables, the session identity and the flashed messages as
    they were.  The exercise fields of such an add-workout request are not
    looked at, so they abort nothing. *)
Theorem unvalidated_requests_change_nothing {engine : Engine} {hasher : Werkzeug}
  {validator : EmailValidator} {python : Interpreter} :
  forall (request : Request) (w : World),
    (RegisterForm.validate_on_submit (RegisterForm.bind_request request) = false ->
     serve (register request) w
     = (render_template (register_html (RegisterForm.bind_request request)),
        rollback w))
    /\ (LoginForm.validate_on_submit (LoginForm.bind_request request) = false ->
        serve (login request) w
        = (render_template (login_html (LoginForm.bind_request request)),
           rollback w))
    /\ (who w <> None ->
        WorkoutForm.validate_on_submit (WorkoutForm.bind_request request) = false ->
        serve (add_workout request) w
        = (render_template (add_workout_html (WorkoutForm.bind_request request)),
           rollback w))
    /\ (method request = GET \/ csrf_ok request = false ->
        RegisterForm.validate_on_submit (RegisterForm.bind_request request) = false
        /\ LoginForm.validate_on_submit (LoginForm.bind_request request) = false
        /\ WorkoutForm.validate_on_submit (WorkoutForm.bind_request request) = false).
Proof.
  intros request w. split; [|split; [|split]].
  - intros V. unfold serve, register. now rewrite V.
  - intros V. unfold serve, login. now rewrite V.
  - intros U V. destruct (who w) as [u|] eqn:E; [|now contradiction U].
    unfold serve, add_workout.
    rewrite login_required_authenticated with (u := u) by exact E.
    now rewrite V.
  - unfold RegisterForm.validate_on_submit, RegisterForm.validate,
      LoginForm.validate_on_submit, LoginForm.validate,
      WorkoutForm.validate_on_submit, WorkoutForm.validate.
    simpl. unfold is_submitted.
    intros [G | C].
    + now rewrite G.
    + rewrite C. simpl. destruct (method request); now repeat split.
Qed.

Lemma unvalidated_requests_change_nothing_witness :
  serve (add_workout (python := cpython) (engine := sqlite)
           (mkRequest POST false (form three_rows_one_malformed) "salt"))
        as_alice
  = (render_template
       (add_workout_html
          (WorkoutForm.bind_request
             (mkRequest POST false (form three_rows_one_malformed) "salt"))),
     rollback as_alice).
Proof.
  apply (@unvalidated_requests_change_nothing sqlite plain_hasher at_sign_validator
           cpython).
  - discriminate.
  - apply (@unvalidated_requests_change_nothing sqlite plain_hasher at_sign_validator
             cpython _ as_alice).
    now right.
Defined.

(** X7. A registration is answered with the redirect to the login page
    exactly when the form validates and neither the address nor the name is
    that of a stored user; then, and only then, the user table changes: it
    gains one user, who has a fresh key, the submitted name and address,
    and as password hash what Werkzeug generates from the submitted
    password.  No other table changes. *)
Theorem register_succeeds_exactly_when {engine : Engine} {hasher : Werkzeug}
  {validator : EmailValidator} :
  forall (request : Request) (w : World),
    let form := RegisterForm.bind_request request in
    let free :=
      RegisterForm.validate_on_submit form = true
      /\ user_with_email (data (RegisterForm.email form)) w = None
      /\ user_with_username (data (RegisterForm.username form)) w = None in
    let after := committed (snd (serve (register request) w)) in
    (fst (serve (register request) w) = redirect ep_login <-> free)
    /\ (free ->
        exists u,
          users after = (users (committed w) ++ [u])%list
          /\ ~ In (User.id u) (map User.id (users (committed w)))
          /\ User.username u = data (RegisterForm.username form)
          /\ User.email u = data (RegisterForm.email form)
          /\ User.password_hash u
             = generate_password_hash (salt request)
                 (data (RegisterForm.password form)))
    /\ (~ free -> users after = users (committed w))
    /\ workouts after = workouts (committed w)
    /\ exercises after = exercises (committed w).
Proof.
  intros request w form free after. subst free after.
  destruct (RegisterForm.validate_on_submit form) eqn:V.
  - rewrite (serve_register request w V). fold form.
    destruct (user_with_email _ w) eqn:E;
      [|destruct (user_with_username _ w) eqn:N]; simpl.
    + repeat split; try easy; try (now intros [_ [? _]]).
    + repeat split; try easy; try (now intros [_ [_ ?]]).
    + repeat split; try easy.
      * intros _. eexists. split; [reflexivity|]. simpl.
        split; [apply next_id_fresh | now repeat split].
      * intros F. exfalso. apply F. now repeat split.
  - unfold serve, register. fold form. rewrite V. simpl.
    repeat split; try easy; try (now intros [? _]).
Qed.

(** ** Logging in and out *)

(** A key that is unique in its table finds its row. *)
Lemma get_unique {A} (key : A -> Z) rows r :
  NoDup (map key rows) -> In r rows -> get key (key r) rows = Some r.
Proof.
  unfold get. induction rows as [|x rows IH]; simpl; [easy|].
  intros D I. apply NoDup_cons_iff in D. destruct D as [N D].
  destruct (Z.eqb_spec (key x) (key r)) as [E | E].
  - destruct I as [-> | I]; [reflexivity|].
    exfalso. apply N. rewrite E. now apply in_map.
  - destruct I as [-> | I]; [now contradiction E | now apply IH].
Qed.

Lemma user_with_email_stored e w u :
  user_with_email e w = Some u -> In u (users (committed w)) /\ User.email u = e.
Proof.
  unfold user_with_email. intros F. apply find_some in F.
  destruct F as [I E]. split; [exact I | now apply String.eqb_eq].
Qed.

Lemma serve_dashboard w u :
  who w = Some u ->
  serve dashboard w
  = (render_template (dashboard_html (Some u) (workouts_of u w)), rollback w).
Proof.
  intros U. unfold serve, dashboard.
  rewrite login_required_authenticated with (u := u) by exact U.
  rewrite (bind_ok _ (current_user_id_run (rollback w) u U)).
  unfold bind at 1. unfold query at 1.
  rewrite (bind_ok _ (current_user_run (rollback w))).
  rewrite who_rollback, U. reflexivity.
Qed.

Lemma serve_workout_history w u :
  who w = Some u ->
  serve workout_history w
  = (render_template
       (workout_history_html
          (map (fun x => (x, exercises_of x w)) (workouts_of u w))),
     rollback w).
Proof.
  intros U. unfold serve, workout_history.
  rewrite login_required_authenticated with (u := u) by exact U.
  rewrite (bind_ok _ (current_user_id_run (rollback w) u U)).
  unfold bind at 1. unfold query at 1.
  unfold bind at 1. unfold all, filter_by.
  rewrite attach_exercises_run. reflexivity.
Qed.

Lemma serve_logout w u :
  who w = Some u ->
  serve logout w
  = (redirect ep_index, mkWorld (committed w) empty_db None (flashed w)).
Proof.
  intros U. unfold serve, logout.
  rewrite login_required_authenticated with (u := u) by exact U.
  reflexivity.
Qed.

(** X8. A login submission with the address of a stored user and a
    password Werkzeug verifies against the stored hash is answered with the
    redirect to the dashboard, flashes nothing and writes nothing; the
    session identity it sets loads that very user on the next request,
    user keys being unique, so that the dashboard served next renders that
    user and that user's workouts. *)
Theorem login_establishes_identity {hasher : Werkzeug}
  {validator : EmailValidator} :
  forall (w : World) (request : Request) (u : User.t),
    let form := LoginForm.bind_request request in
    NoDup (map User.id (users (committed w))) ->
    LoginForm.validate_on_submit form = true ->
    user_with_email (data (LoginForm.email form)) w = Some u ->
    check_password u (data (LoginForm.password form)) = true ->
    let after := snd (serve (login request) w) in
    serve (login request) w
    = (redirect ep_dashboard,
       mkWorld (committed w) empty_db (Some (User.id u)) (flashed w))
    /\ who after = Some u
    /\ serve dashboard after
       = (render_template (dashboard_html (Some u) (workouts_of u w)), after).
Proof.
  intros w request u form D V F C after. subst after.
  pose proof (serve_login request w V) as L. cbv zeta in L.
  fold form in L. rewrite F, C in L. rewrite L. simpl.
  assert (U : who (mkWorld (committed w) empty_db (Some (User.id u)) (flashed w))
              = Some u).
  { unfold who. simpl. apply get_unique; [exact D|].
    now apply user_with_email_stored in F. }
  split; [reflexivity|]. split; [exact U|].
  now rewrite (serve_dashboard _ u U).
Qed.

Lemma login_establishes_identity_witness :
  NoDup (map User.id (users (committed as_nobody)))
  /\ who (snd (serve (login (hasher := plain_hasher)
                        (validator := at_sign_validator)
                        (credentials "alice@example.com" "wonderland"))
                 as_nobody))
     = Some alice.
Proof.
  split; [exact (user_keys _ gym_consistent)|].
  apply (@login_establishes_identity plain_hasher at_sign_validator as_nobody
           (credentials "alice@example.com" "wonderland") alice
           (user_keys _ gym_consistent) eq_refl eq_refl eq_refl).
Defined.

(** X9. Logging out ends the session: for an authenticated request
    [logout] answers with the redirect to the index page, clears the
    session identity and writes and flashes nothing; the request served
    next is anonymous, so that a protected view, the dashboard for one, is
    answered with the redirect to the login page. *)
Theorem logout_ends_the_session :
  forall (w : World) (u : User.t),
    who w = Some u ->
    let after := snd (serve logout w) in
    serve logout w
    = (redirect ep_index, mkWorld (committed w) empty_db None (flashed w))
    /\ who after = None
    /\ serve dashboard after
       = (redirect ep_login, flashing after [(please_log_in, message)]).
Proof.
  intros w u U after. subst after.
  rewrite (serve_logout w u U). simpl.
  split; [reflexivity|]. split; [reflexivity|].
  unfold dashboard. now apply serve_anonymous.
Qed.

Lemma logout_ends_the_session_witness :
  who as_alice = Some alice
  /\ who (snd (serve logout as_alice)) = None.
Proof.
  split; [reflexivity|].
  apply (logout_ends_the_session as_alice alice eq_refl).
Defined.

(** ** Where requests fail *)

(** X10. Of the views other than [login], whose check of a stored hash
    is Werkzeug's, only two can end in a server error.  One is
    [add_workout], for an authenticated user with a valid workout form:
    the error is the [ValueError] of a coercion or the [IndexError] of an
    indexing in the loop over the exercise fields, or the [OverflowError]
    of the second commit.  The other is [view_workout], for an
    authenticated user and an id outside the range of the engine's
    [INTEGER]: the error is [OverflowError].  No request makes a view fail
    on [current_user.id].  The only not-found response is that of
    [view_workout] for an authenticated user and an id within the range
    that is the key of no stored workout. *)
Theorem failures_are_those_of_add_and_view_workout {engine : Engine}
  {hasher : Werkzeug} {validator : EmailValidator} {python : Interpreter} :
  forall (c : Call) (w : World),
    (forall request, c <> call_login request) ->
    (forall e, fst (serve (view_of c) w) = internal_server_error e ->
               (exists request,
                  c = call_add_workout request
                  /\ who w <> None
                  /\ WorkoutForm.validate_on_submit
                       (WorkoutForm.bind_request request) = true
                  /\ (e = ValueError \/ e = IndexError \/ e = OverflowError))
               \/ (exists workout_id,
                     c = call_view_workout workout_id
                     /\ who w <> None
                     /\ fits workout_id = false
                     /\ e = OverflowError))
    /\ (fst (serve (view_of c) w) = not_found ->
        exists workout_id,
          c = call_view_workout workout_id
          /\ who w <> None
          /\ fits workout_id = true
          /\ ~ In workout_id (map Workout.id (workouts (committed w)))).
Proof.
  intros c w NotLogin. destruct c; cbn [view_of].
  - split; [intros e|]; discriminate.
  - destruct (RegisterForm.validate_on_submit (RegisterForm.bind_request request))
      eqn:V.
    + rewrite (serve_register request w V).
      destruct (user_with_email _ w); [|destruct (user_with_username _ w)];
        (split; [intros e|]; discriminate).
    + unfold serve, register. rewrite V. split; [intros e|]; discriminate.
  - now contradiction (NotLogin request).
  - destruct (who w) as [u|] eqn:U.
    + rewrite (serve_logout w u U). split; [intros e|]; discriminate.
    + unfold logout. rewrite serve_anonymous by exact U.
      split; [intros e|]; discriminate.
  - destruct (who w) as [u|] eqn:U.
    + rewrite (serve_dashboard w u U). split; [intros e|]; discriminate.
    + unfold dashboard. rewrite serve_anonymous by exact U.
      split; [intros e|]; discriminate.
  - destruct (who w) as [u|] eqn:U.
    2:{ unfold add_workout. rewrite serve_anonymous by exact U.
        split; [intros e|]; discriminate. }
    destruct (WorkoutForm.validate_on_submit (WorkoutForm.bind_request request))
      eqn:V.
    2:{ unfold serve, add_workout.
        rewrite login_required_authenticated with (u := u) by exact U.
        rewrite V. split; [intros e|]; discriminate. }
    pose proof (serve_add_workout request w u U V) as E. cbv zeta in E.
    rewrite E. clear E.
    set (run := collect _).
    destruct (snd run) as [e0|] eqn:F.
    + split; [|discriminate].
      intros e [= <-]. left. exists request.
      split; [reflexivity|]. split; [discriminate|]. split; [exact V|].
      apply collect_failure in F. apply in_map_iff in F.
      destruct F as [i [F _]]. apply step_failure_kind in F. tauto.
    + destruct (forallb entry_fits (fst run)).
      * split; [intros e|]; discriminate.
      * split; [|discriminate].
        intros e [= <-]. left. exists request.
        split; [reflexivity|]. split; [discriminate|]. split; [exact V|].
        tauto.
  - destruct (who w) as [u|] eqn:U.
    + rewrite (serve_workout_history w u U). split; [intros e|]; discriminate.
    + unfold workout_history. rewrite serve_anonymous by exact U.
      split; [intros e|]; discriminate.
  - destruct (who w) as [u|] eqn:U.
    + rewrite (serve_view_workout w u workout_id U).
      destruct (fits workout_id) eqn:Fit.
      * destruct (get Workout.id workout_id (workouts (committed w)))
          as [x|] eqn:G.
        -- split; [intros e|]; discriminate.
        -- split; [intros e; discriminate|].
           intros _. exists workout_id.
           split; [reflexivity|]. split; [discriminate|].
           split; [exact Fit|].
           intros I. apply get_present in I. destruct I as [x I]. congruence.
      * split; [|discriminate].
        intros e [= <-]. right. exists workout_id.
        split; [reflexivity|]. split; [discriminate|]. now split.
    + unfold view_workout. rewrite serve_anonymous by exact U.
      split; [intros e|]; discriminate.
Qed.

Lemma failures_are_those_of_add_and_view_workout_witness :
  (forall request, call_view_workout 9223372036854775808 <> call_login request)
  /\ fst (serve (view_of (engine := sqlite) (hasher := plain_hasher)
                   (validator := at_sign_validator) (python := cpython)
                   (call_view_workout 9223372036854775808)) as_bob)
     = internal_server_error OverflowError
  /\ fits (engine := sqlite) 9223372036854775808 = false.
Proof.
  split; [discriminate|].
  destruct (@failures_are_those_of_add_and_view_workout sqlite plain_hasher
              at_sign_validator cpython
              (call_view_workout 9223372036854775808) as_bob)
    as [Error _]; [discriminate|].
  split; [reflexivity|].
  destruct (Error OverflowError eq_refl)
    as [[request [C _]] | [workout_id [C [_ [Fit _]]]]];
    [discriminate C|].
  injection C as <-. exact Fit.
Defined.

(** ** When adding a workout succeeds *)

(** The loop and the second commit both succeed exactly when every step
    passes. *)
Lemma collect_passes {engine : Engine} ss :
  snd (collect ss) = None /\ forallb entry_fits (fst (collect ss)) = true
  <-> forallb passes ss = true.
Proof.
  induction ss as [|[|x|e] ss IH]; simpl.
  - tauto.
  - exact IH.
  - destruct (collect ss) as [xs f]. simpl in *.
    rewrite !andb_true_iff. tauto.
  - split; [intros [F _] | intros F]; discriminate.
Qed.

(** The step at an index of the list of names passes exactly when a
    non-blank name there comes with a body part and with sets and reps that
    are well-formed integers in the range of the engine. *)
Lemma step_passes {engine : Engine} {python : Interpreter}
  names body_parts sets reps i n :
  nth_error names i = Some n ->
  passes (step names body_parts sets reps i) = true
  <-> (blank n = false ->
       exists b s r,
         nth_error body_parts i = Some b
         /\ nth_error sets i = Some s /\ nth_error reps i = Some r
         /\ storable_integer s /\ storable_integer r).
Proof.
  intros N. unfold step, storable_integer. rewrite N, truthy_strip.
  destruct (blank n); simpl.
  - split; [discriminate | reflexivity].
  - destruct (nth_error body_parts i) as [b|].
    2:{ split; [discriminate|].
        intros C. destruct (C eq_refl) as [b [s [r [B _]]]]. discriminate. }
    destruct (nth_error sets i) as [s|].
    2:{ split; [discriminate|].
        intros C. destruct (C eq_refl) as [b' [s [r [_ [S _]]]]]. discriminate. }
    destruct (PyStr.int int_max_str_digits s) as [sv|] eqn:ES.
    2:{ split; [discriminate|].
        intros C.
        destruct (C eq_refl) as [b' [s' [r [_ [[= <-] [_ [[z [W _]] _]]]]]]].
        congruence. }
    destruct (nth_error reps i) as [r|].
    2:{ split; [discriminate|].
        intros C. destruct (C eq_refl) as [b' [s' [r [_ [_ [R _]]]]]].
        discriminate. }
    destruct (PyStr.int int_max_str_digits r) as [rv|] eqn:ER.
    2:{ split; [discriminate|].
        intros C.
        destruct (C eq_refl) as [b' [s' [r' [_ [_ [[= <-] [_ [z [W _]]]]]]]]].
        congruence. }
    simpl. unfold entry_fits. simpl. rewrite andb_true_iff. split.
    + intros [FS FR] _. exists b, s, r.
      repeat split; [exists sv | exists rv]; now split.
    + intros C.
      destruct (C eq_refl)
        as [b' [s' [r' [_ [[= <-] [[= <-] [[z [WS FS]] [z' [WR FR]]]]]]]]].
      rewrite ES in WS. rewrite ER in WR.
      injection WS as <-. injection WR as <-. now split.
Qed.

(** X11. For an authenticated user and a valid workout form, [add_workout]
    ends with the redirect to the dashboard exactly when every index of the
    list of names that holds a non-blank name is within the lists of body
    parts, sets and reps, with sets and reps there that are well-formed
    integers in the range of the engine's [INTEGER]; in every other case
    the request ends in a server error.  What stands at an index whose
    name is blank, or beyond the last name, does not matter. *)
Theorem add_workout_succeeds_exactly_when {engine : Engine}
  {python : Interpreter} :
  forall (w : World) (u : User.t) (request : Request),
    who w = Some u ->
    WorkoutForm.validate_on_submit (WorkoutForm.bind_request request) = true ->
    let names := getlist "exercise_name" request in
    let body_parts := getlist "exercise_body_part" request in
    let sets := getlist "exercise_sets" request in
    let reps := getlist "exercise_reps" request in
    let complete :=
      forall i n,
        nth_error names i = Some n -> blank n = false ->
        exists b s r,
          nth_error body_parts i = Some b
          /\ nth_error sets i = Some s /\ nth_error reps i = Some r
          /\ storable_integer s /\ storable_integer r in
    (fst (serve (add_workout request) w) = redirect ep_dashboard <-> complete)
    /\ (~ complete ->
        exists e, fst (serve (add_workout request) w) = internal_server_error e).
Proof.
  intros w u request U V names body_parts sets reps complete.
  pose proof (serve_add_workout request w u U V) as E. cbv zeta in E.
  fold names body_parts sets reps in E.
  set (run := collect _) in E.
  assert (R : snd run = None /\ forallb entry_fits (fst run) = true
              <-> complete).
  { unfold run. rewrite collect_passes, forallb_forall. unfold complete. split.
    - intros F i n N. apply (step_passes names body_parts sets reps i n N).
      apply F. apply in_map. unfold range. apply in_seq.
      assert (i < List.length names)%nat by (apply nth_error_Some; congruence).
      lia.
    - intros C st I. apply in_map_iff in I. destruct I as [i [<- I]].
      unfold range in I. apply in_seq in I.
      destruct (nth_error names i) as [n|] eqn:N.
      + apply (step_passes names body_parts sets reps i n N). now apply C.
      + apply nth_error_None in N. lia. }
  rewrite E. destruct (snd run) as [e|]; simpl.
  - split.
    + split; [discriminate|]. intros C. apply R in C. destruct C. discriminate.
    + intros _. now exists e.
  - destruct (forallb entry_fits (fst run)); simpl.
    + split.
      * split; [intros _; now apply R | reflexivity].
      * intros C. exfalso. apply C. now apply R.
    + split.
      * split; [discriminate|]. intros C. apply R in C. destruct C.
        discriminate.
      * intros _. now exists OverflowError.
Qed.

Lemma add_workout_succeeds_exactly_when_witness :
  who as_alice = Some alice
  /\ (exists e,
        fst (serve (add_workout (python := cpython) (engine := sqlite)
                      (one_sets_value "5")) as_alice)
        = internal_server_error e)
  /\ fst (serve (add_workout (python := cpython) (engine := sqlite)
                   (add_workout_with [squats_beyond_count])) as_alice)
     <> redirect ep_dashboard.
Proof.
  split; [reflexivity|]. split.
  - apply (@add_workout_succeeds_exactly_when sqlite cpython as_alice alice
             (one_sets_value "5") eq_refl eq_refl).
    intros C. destruct (C 1%nat "press" eq_refl eq_refl) as [b [s [r [_ [S _]]]]].
    discriminate.
  - intros R.
    destruct (@add_workout_succeeds_exactly_when sqlite cpython as_alice alice
                (add_workout_with [squats_beyond_count]) eq_refl eq_refl)
      as [[Complete _] _].
    destruct (Complete R 0%nat "squat" eq_refl eq_refl)
      as [b [s [r [_ [[= <-] [_ [[z [Z F]] _]]]]]]].
    injection Z as <-. discriminate F.
Defined.

(** X12. When no name is given, or every name is blank, an authenticated
    user's valid add-workout submission stores the workout without any
    exercise and ends with the redirect to the dashboard, whatever the lists
    of body parts, sets and reps hold: they are not looked at. *)
Theorem add_workout_without_names_stores_the_workout {engine : Engine}
  {python : Interpreter} :
  forall (w : World) (u : User.t) (request : Request),
    who w = Some u ->
    WorkoutForm.validate_on_submit (WorkoutForm.bind_request request) = true ->
    (forall n, In n (getlist "exercise_name" request) -> blank n = true) ->
    serve (add_workout request) w
    = (redirect ep_dashboard,
       with_workout w (new_workout w u request) [] [(workout_added, success)]).
Proof.
  intros w u request U V B.
  pose proof (serve_add_workout request w u U V) as E. cbv zeta in E.
  set (names := getlist "exercise_name" request) in *.
  assert (S : map (step names (getlist "exercise_body_part" request)
                        (getlist "exercise_sets" request)
                        (getlist "exercise_reps" request))
                  (range (List.length names))
              = map (fun _ => Skipped) names).
  { apply map_range. intros i n N. unfold step. rewrite N, truthy_strip.
    rewrite (B n (nth_error_In _ _ N)). reflexivity. }
  rewrite S in E.
  assert (C : collect (map (fun _ : string => Skipped) names) = ([], None))
    by (clear; induction names; simpl; auto).
  rewrite C in E. exact E.
Qed.

Lemma add_workout_without_names_stores_the_workout_witness :
  who as_alice = Some alice
  /\ serve (add_workout (python := cpython) (engine := sqlite)
             (post (workout_fields ++ [("exercise_sets", "five")])))
           as_alice
     = (redirect ep_dashboard,
        with_workout as_alice
          (new_workout as_alice alice
             (post (workout_fields ++ [("exercise_sets", "five")])))
          [] [(workout_added, success)]).
Proof.
  split; [reflexivity|].
  apply (@add_workout_without_names_stores_the_workout sqlite cpython as_alice alice
           (post (workout_fields ++ [("exercise_sets", "five")]))
           eq_refl eq_refl).
  intros n [].
Defined.

(** ** What is stored is what is shown *)

Lemma filter_all {A} (p : A -> bool) l :
  (forall x, In x l -> p x = true) -> filter p l = l.
Proof.
  induction l as [|x l IH]; simpl; intros P; [reflexivity|].
  rewrite (P x (or_introl eq_refl)). f_equal. apply IH.
  intros y I. apply P. now right.
Qed.

Lemma filter_none {A} (p : A -> bool) l :
  (forall x, In x l -> p x = false) -> filter p l = [].
Proof.
  induction l as [|x l IH]; simpl; intros P; [reflexivity|].
  rewrite (P x (or_introl eq_refl)). apply IH.
  intros y I. apply P. now right.
Qed.

(** X13. A workout that was added is the workout that is shown.  In a
    consistent database whose next workout key the engine can still hand
    out, after an authenticated user's valid add-workout submission whose
    exercise rows have, wherever the name is not blank, sets and reps that
    are well-formed integers in the range of the engine's [INTEGER],
    [view_workout] for the key of the new workout renders that workout
    with exactly the exercises stored for the non-blank rows, in order and
    with no exercise of an older workout among them, and the dashboard of
    the user lists the new workout after the workouts the user had. *)
Theorem added_workout_is_shown {engine : Engine} {python : Interpreter} :
  forall (w : World) (u : User.t) (request : Request) (rows : list ExerciseRow),
    consistent (committed w) ->
    who w = Some u ->
    WorkoutForm.validate_on_submit (WorkoutForm.bind_request request) = true ->
    submits request rows ->
    (forall r, In r rows -> blank (row_name r) = false ->
               storable_integer (row_sets r) /\ storable_integer (row_reps r)) ->
    fits (Workout.id (new_workout w u request)) = true ->
    let x := new_workout w u request in
    let after := snd (serve (add_workout request) w) in
    exists es : list Exercise.t,
      Forall2 (persisted_as (Workout.id x))
              (filter (fun r => negb (blank (row_name r))) rows) es
      /\ serve (view_workout (Workout.id x)) after
         = (render_template (view_workout_html x es), after)
      /\ serve dashboard after
         = (render_template (dashboard_html (Some u) (workouts_of u w ++ [x])),
            after).
Proof.
  intros w u request rows C U V S W K x after. subst after.
  pose proof (serve_add_workout request w u U V) as E. cbv zeta in E.
  rewrite (steps_of_rows request rows S) in E. fold x in E.
  destruct (collect_rows (Workout.id x) rows W
              (next_id (map Exercise.id (exercises (committed w)))))
    as [F [Fit P]].
  rewrite F, Fit in E.
  remember (number (Workout.id x)
              (next_id (map Exercise.id (exercises (committed w))))
              (fst (collect (map row_step rows)))) as es eqn:Es.
  rewrite E. cbn [snd]. exists es. split; [exact P|].
  set (after := with_workout w x es [(workout_added, success)]).
  assert (U' : who after = Some u) by exact U.
  assert (Fresh : ~ In (Workout.id x) (map Workout.id (workouts (committed w))))
    by apply next_id_fresh.
  split.
  - rewrite (serve_view_workout after u (Workout.id x) U'). fold x in K.
    rewrite K.
    unfold after at 1, with_workout, get. cbn [committed workouts].
    rewrite find_app_none by (apply (get_absent Workout.id); exact Fresh).
    cbn [find]. rewrite Z.eqb_refl.
    unfold exercises_of, after, with_workout. cbn [committed exercises].
    rewrite filter_app, filter_none, filter_all; [reflexivity| |].
    + intros e I. apply Z.eqb_eq. subst es.
      now apply (number_keys (Workout.id x)
                   (fst (collect (map row_step rows)))
                   (next_id (map Exercise.id (exercises (committed w))))).
    + intros e I. apply Z.eqb_neq. intros Q. apply Fresh. rewrite <- Q.
      now apply (exercise_workout _ C).
  - rewrite (serve_dashboard after u U').
    unfold workouts_of, after, with_workout. cbn [committed workouts].
    rewrite filter_app. cbn [filter].
    replace (Workout.user_id x =? User.id u) with true
      by (symmetry; apply Z.eqb_refl).
    reflexivity.
Qed.

Lemma added_workout_is_shown_witness :
  consistent (committed as_alice)
  /\ who as_alice = Some alice
  /\ exists es,
       List.length es = 2%nat
       /\ serve (view_workout (engine := sqlite) 2)
            (snd (serve (add_workout (python := cpython) (engine := sqlite)
                           three_rows) as_alice))
          = (render_template
               (view_workout_html (new_workout as_alice alice three_rows) es),
             snd (serve (add_workout (python := cpython) (engine := sqlite)
                           three_rows) as_alice)).
Proof.
  split; [exact gym_consistent|]. split; [reflexivity|].
  destruct (@added_workout_is_shown sqlite cpython as_alice alice three_rows
              [squats; no_name; presses] gym_consistent eq_refl eq_refl)
    as [es [P [E _]]].
  - repeat split.
  - intros r [<- | [<- | [<- | []]]]; intros B; try discriminate B;
      split; eexists; split; reflexivity.
  - reflexivity.
  - exists es. split; [|exact E].
    apply Forall2_length in P. now rewrite <- P.
Defined.

(** ** The history page *)

Lemma unique_key_identifies {A} (key : A -> Z) rows x y :
  NoDup (map key rows) -> In x rows -> In y rows -> key x = key y -> x = y.
Proof.
  intros D X Y E.
  assert (G : get key (key x) rows = Some x) by now apply get_unique.
  rewrite E in G. rewrite (get_unique key rows y D Y) in G. congruence.
Qed.

(** X14. The history page shows a user nothing of another user: workout
    keys being unique, every workout it lists belongs to the user who makes
    the request, and every exercise it lists under a workout references
    that workout, hence no workout of anybody else. *)
Theorem workout_history_shows_own_exercises_only :
  forall (w : World) (u : User.t),
    NoDup (map Workout.id (workouts (committed w))) ->
    who w = Some u ->
    exists page,
      serve workout_history w
      = (render_template (workout_history_html page), rollback w)
      /\ forall x es,
           In (x, es) page ->
           In x (workouts (committed w))
           /\ Workout.user_id x = User.id u
           /\ forall e, In e es ->
                In e (exercises (committed w))
                /\ Exercise.workout_id e = Workout.id x
                /\ forall y, In y (workouts (committed w)) ->
                             Workout.id y = Exercise.workout_id e ->
                             Workout.user_id y = User.id u.
Proof.
  intros w u D U. eexists. split; [apply (serve_workout_history w u U)|].
  intros x es I. apply in_map_iff in I. destruct I as [x' [[= -> <-] I]].
  apply workouts_of_spec in I. destruct I as [I O].
  split; [exact I|]. split; [exact O|].
  intros e J. unfold exercises_of in J. apply filter_In in J.
  destruct J as [J K]. apply Z.eqb_eq in K.
  split; [exact J|]. split; [exact K|].
  intros y Y E. rewrite K in E.
  now rewrite (unique_key_identifies Workout.id _ y x D Y I E).
Qed.

Lemma workout_history_shows_own_exercises_only_witness :
  NoDup (map Workout.id (workouts (committed as_alice)))
  /\ who as_alice = Some alice
  /\ exists page,
       serve workout_history as_alice
       = (render_template (workout_history_html page), rollback as_alice)
       /\ forall x es, In (x, es) page -> Workout.user_id x = User.id alice.
Proof.
  split; [exact (workout_keys _ gym_consistent)|]. split; [reflexivity|].
  destruct (workout_history_shows_own_exercises_only as_alice alice
              (workout_keys _ gym_consistent) eq_refl) as [page [E O]].
  exists page. split; [exact E|].
  intros x es I. now apply (O x es I).
Defined.

(** ** Across requests *)

Lemma stored_users_stay {engine : Engine}
  {hasher : Werkzeug} {validator : EmailValidator}
  {python : Interpreter} (c : Call) (w : World) (u : User.t) :
  In u (users (committed w)) ->
  In u (users (committed (snd (serve (view_of c) w)))).
Proof.
  intros I. destruct c; cbn [view_of].
  - now rewrite (serve_read_only index w read_only_index).
  - destruct (register_tables request w) as [E | [_ [_ [_ E]]]]; rewrite E;
      [exact I | simpl; apply in_or_app; now left].
  - now rewrite (serve_read_only _ w (read_only_login request)).
  - now rewrite (serve_read_only _ w read_only_logout).
  - now rewrite (serve_read_only _ w read_only_dashboard).
  - destruct (add_workout_tables request w) as [E | [v [es [_ [_ [E _]]]]]];
      rewrite E; exact I.
  - now rewrite (serve_read_only _ w read_only_workout_history).
  - now rewrite (serve_read_only _ w (read_only_view_workout workout_id)).
Qed.

Lemma stored_users_stay_all {engine : Engine}
  {hasher : Werkzeug} {validator : EmailValidator}
  {python : Interpreter} (calls : list Call) (u : User.t) :
  forall w,
    In u (users (committed w)) -> In u (users (committed (serve_all calls w))).
Proof.
  induction calls as [|c calls IH]; intros w I; cbn [serve_all]; [exact I|].
  apply IH. now apply stored_users_stay.
Qed.

(** X15. An address and a name, once registered, stay taken.  After a
    registration that succeeded and any sequence of calls of the views, a
    valid registration with the same address is rejected with the message
    for the address, and one with another address that no stored user has
    but with the same name is rejected with the message for the name;
    neither stores a user. *)
Theorem registered_address_and_name_stay_taken {engine : Engine} {hasher : Werkzeug}
  {validator : EmailValidator} {python : Interpreter} :
  forall (w : World) (first again : Request) (calls : list Call),
    fst (serve (register first) w) = redirect ep_login ->
    RegisterForm.validate_on_submit (RegisterForm.bind_request again) = true ->
    let a := RegisterForm.bind_request first in
    let b := RegisterForm.bind_request again in
    let later := serve_all calls (snd (serve (register first) w)) in
    (data (RegisterForm.email b) = data (RegisterForm.email a) ->
     serve (register again) later
     = (redirect ep_register, flashing later [(email_taken, danger)]))
    /\ (user_with_email (data (RegisterForm.email b)) later = None ->
        data (RegisterForm.username b) = data (RegisterForm.username a) ->
        serve (register again) later
        = (redirect ep_register, flashing later [(username_taken, danger)])).
Proof.
  intros w first again calls Done V a b later.
  assert (Stored : exists u,
             In u (users (committed later))
             /\ User.email u = data (RegisterForm.email a)
             /\ User.username u = data (RegisterForm.username a)).
  { destruct (RegisterForm.validate_on_submit a) eqn:Va.
    - rewrite (serve_register first w Va) in Done. fold a in Done.
      eexists. split.
      + unfold later. apply stored_users_stay_all.
        rewrite (serve_register first w Va). fold a.
        destruct (user_with_email _ w); [discriminate Done|].
        destruct (user_with_username _ w); [discriminate Done|].
        simpl. apply in_or_app. right. now left.
      + now split.
    - unfold serve, register in Done. fold a in Done. rewrite Va in Done.
      discriminate Done. }
  destruct Stored as [u [I [E N]]].
  rewrite (serve_register again later V). fold b. split.
  - intros Q.
    destruct (find_present (fun x => String.eqb (User.email x)
                                       (data (RegisterForm.email b)))
                _ u I) as [y F]; [apply String.eqb_eq; congruence|].
    unfold user_with_email. now rewrite F.
  - intros Free Q. rewrite Free.
    destruct (find_present (fun x => String.eqb (User.username x)
                                       (data (RegisterForm.username b)))
                _ u I) as [y F]; [apply String.eqb_eq; congruence|].
    unfold user_with_username. now rewrite F.
Qed.

Lemma registered_address_and_name_stay_taken_witness :
  fst (serve (register (engine := sqlite)
          (hasher := plain_hasher) (validator := at_sign_validator)
                carol_registers) as_nobody)
  = redirect ep_login
  /\ fst (serve (register (engine := sqlite) (hasher := plain_hasher)
                   (validator := at_sign_validator) carol_registers)
            (serve_all (engine := sqlite)
                    (hasher := plain_hasher) (validator := at_sign_validator)
               (python := cpython)
               [call_login carol_logs_in; call_add_workout three_rows;
                call_logout]
               (snd (serve (register (engine := sqlite) (hasher := plain_hasher)
                              (validator := at_sign_validator) carol_registers)
                       as_nobody))))
     = redirect ep_register.
Proof.
  split; [reflexivity|].
  destruct (@registered_address_and_name_stay_taken sqlite plain_hasher
              at_sign_validator cpython as_nobody carol_registers
              carol_registers
              [call_login carol_logs_in; call_add_workout three_rows;
               call_logout]
              eq_refl eq_refl) as [Taken _].
  now rewrite (Taken eq_refl).
Defined.

(** X16. A request to add a workout that ends in a server error leaves its
    workout behind, whether a coercion, an indexing or the second commit
    failed.  In a consistent database whose next workout key the engine
    can still hand out, after such a request of an authenticated user the
    dashboard of the user lists the new workout after the workouts the
    user had, and [view_workout] for its key renders it with no exercise
    at all, the rows that were read before the failure included. *)
Theorem failed_add_workout_leaves_an_empty_workout {engine : Engine}
  {python : Interpreter} :
  forall (w : World) (u : User.t) (request : Request) (e : Exn),
    consistent (committed w) ->
    who w = Some u ->
    fits (Workout.id (new_workout w u request)) = true ->
    fst (serve (add_workout request) w) = internal_server_error e ->
    let x := new_workout w u request in
    let after := snd (serve (add_workout request) w) in
    serve dashboard after
    = (render_template (dashboard_html (Some u) (workouts_of u w ++ [x])), after)
    /\ serve (view_workout (Workout.id x)) after
       = (render_template (view_workout_html x []), after).
Proof.
  intros w u request e C U K Failed x after. subst after. fold x in K.
  destruct (WorkoutForm.validate_on_submit (WorkoutForm.bind_request request))
    eqn:V.
  2:{ exfalso. revert Failed. unfold serve, add_workout.
      rewrite login_required_authenticated with (u := u) by exact U.
      rewrite V. discriminate. }
  set (after := with_workout w x [] []).
  assert (Empty :
            serve dashboard after
            = (render_template (dashboard_html (Some u) (workouts_of u w ++ [x])),
               after)
            /\ serve (view_workout (Workout.id x)) after
               = (render_template (view_workout_html x []), after)).
  { assert (U' : who after = Some u) by exact U.
    assert (Fresh : ~ In (Workout.id x) (map Workout.id (workouts (committed w))))
      by apply next_id_fresh.
    split.
    - rewrite (serve_dashboard after u U').
      unfold workouts_of, after, with_workout. cbn [committed workouts].
      rewrite filter_app. cbn [filter].
      replace (Workout.user_id x =? User.id u) with true
        by (symmetry; apply Z.eqb_refl).
      reflexivity.
    - rewrite (serve_view_workout after u (Workout.id x) U'), K.
      unfold after at 1, with_workout, get. cbn [committed workouts].
      rewrite find_app_none by (apply (get_absent Workout.id); exact Fresh).
      cbn [find]. rewrite Z.eqb_refl.
      unfold after, with_workout. cbn [committed exercises].
      rewrite app_nil_r, filter_none; [reflexivity|].
      intros e0 I. apply Z.eqb_neq. intros Q. apply Fresh. rewrite <- Q.
      now apply (exercise_workout _ C). }
  pose proof (serve_add_workout request w u U V) as E. cbv zeta in E.
  fold x in E. rewrite E in Failed |- *.
  set (run := collect _) in *.
  destruct (snd run) as [e'|]; [exact Empty|].
  destruct (forallb entry_fits (fst run)); [discriminate Failed | exact Empty].
Qed.

Lemma failed_add_workout_leaves_an_empty_workout_witness :
  consistent (committed as_alice)
  /\ who as_alice = Some alice
  /\ fst (serve (add_workout (python := cpython) (engine := sqlite)
                   (add_workout_with [squats_beyond_count])) as_alice)
     = internal_server_error OverflowError
  /\ serve (view_workout (engine := sqlite) 2)
       (snd (serve (add_workout (python := cpython) (engine := sqlite)
                      (add_workout_with [squats_beyond_count])) as_alice))
     = (render_template
          (view_workout_html
             (new_workout as_alice alice (add_workout_with [squats_beyond_count]))
             []),
        snd (serve (add_workout (python := cpython) (engine := sqlite)
                      (add_workout_with [squats_beyond_count])) as_alice)).
Proof.
  split; [exact gym_consistent|]. split; [reflexivity|].
  split; [reflexivity|].
  apply (@failed_add_workout_leaves_an_empty_workout sqlite cpython as_alice
           alice (add_workout_with [squats_beyond_count]) OverflowError
           gym_consistent eq_refl eq_refl eq_refl).
Defined.
